(** * Nutrition assistant: goal adjustment and macro accounting

    A shallow embedding of the derived-state computations of the application
    ([src/App.tsx], [src/components/Dashboard.tsx] and the meal-completion
    service) together with the properties the specification states for them.

    Modelling conventions.
    - A JavaScript [number] holding a nutrient quantity, a step count or a
      millisecond timestamp is an integer ([Z]); the only fractional values
      of the core are the draws of [Math.random] and the products formed from
      them before [Math.round], which are exact rationals ([Q]).
    - An object is a record; [{...o}] is a copy of the record.  Where a claim
      is about mutation, objects live in a store indexed by locations.
    - [Array.prototype.reduce] is [fold_left], [some] is [existsb],
      [filter] and [map] are the list functions of the same name. *)

From Stdlib Require Import ZArith QArith Qround Qminmax Lia Lqa.
From stdpp Require Import gmap strings list pretty.

Local Open Scope Z_scope.

(** ** Data model ([types.ts]) *)

Inductive MealType := Breakfast | Lunch | Dinner | Snack.

#[global] Instance MealType_eq_dec : EqDecision MealType.
Proof. solve_decision. Defined.

Inductive GoalType := Recomposition | Cut | Bulk.

#[global] Instance GoalType_eq_dec : EqDecision GoalType.
Proof. solve_decision. Defined.

(** [interface Nutrients]: the seven summed quantities. *)
Module Nutrients.
Record t := mk {
    calories : Z;
    protein : Z;
    carbs : Z;
    fat : Z;
    fiber : Z;
    salt : Z;
    potassium : Z
  }.

Definition zero : t := mk 0 0 0 0 0 0 0.

(** Elementwise sum of two profiles. *)
Definition add (a b : t) : t :=
    mk (calories a + calories b) (protein a + protein b) (carbs a + carbs b)
       (fat a + fat b) (fiber a + fiber b) (salt a + salt b)
       (potassium a + potassium b).
End Nutrients.

(** [interface FoodEntry extends Nutrients].  The analysis service only
    requires the four macro fields of its answer, so the three micro fields
    may be absent on an entry ([undefined]); the dashboard reads them through
    [e.fiber || 0]. *)
Module FoodEntry.
Record t := mk {
    id : string;
    name : string;
    mealType : MealType;
    timestamp : Z;
    tags : list string;
    inflammationFlags : list string;
    insight : option string;
    images : option (list string);
    calories : Z;
    protein : Z;
    carbs : Z;
    fat : Z;
    fiber : option Z;
    salt : option Z;
    potassium : option Z
  }.
End FoodEntry.

(** [interface UserGoals]. *)
Module UserGoals.
Record t := mk {
    type : GoalType;
    calories : Z;
    protein : Z;
    carbs : Z;
    fat : Z;
    isTrainingDay : bool;
    steps : Z;
    water : Z;
    fiber : Z;
    salt : Z;
    potassium : Z
  }.

(** Field assignments [g.calories = v] and [g.carbs = v] on a record value. *)
Definition set_calories (v : Z) (g : t) : t :=
    mk (type g) v (protein g) (carbs g) (fat g) (isTrainingDay g) (steps g)
       (water g) (fiber g) (salt g) (potassium g).

Definition set_carbs (v : Z) (g : t) : t :=
    mk (type g) (calories g) (protein g) v (fat g) (isTrainingDay g) (steps g)
       (water g) (fiber g) (salt g) (potassium g).
End UserGoals.

(** [interface DayLog].  The [date] string is the [YYYY-MM-DD] prefix of
    [toISOString()], which renders a UTC calendar day; it is kept as the
    number of that day (days since 1970-01-01 UTC), of which the string is an
    injective rendering, so that comparing two date strings is comparing two
    day numbers.  [entries] holds the array the summary refers to; the
    summary of today is given the array of live entries itself, which the
    model renders as equality of the two lists. *)
Module DayLog.
Record t := mk {
    date : Z;
    dayName : string;
    entries : list FoodEntry.t
  }.
End DayLog.

(** ** Goal adjuster ([App.tsx], [adjustedGoals]) *)

Definition adjustedGoals (goals : UserGoals.t) : UserGoals.t :=
  let g := goals in
  let g :=
    if UserGoals.isTrainingDay g then
      let g := UserGoals.set_calories (UserGoals.calories g + 300) g in
      UserGoals.set_carbs (UserGoals.carbs g + 50) g
    else g in
  let g :=
    if 10000 <? UserGoals.steps g then
      UserGoals.set_carbs (UserGoals.carbs g + 30) g
    else g in
  g.

(** The same computation on a store of goal objects: [{ ...goals }]
    allocates a new object holding a copy of the fields of [goals], and every
    later assignment is a write to that new object. *)
Module Store.
Definition loc := positive.
Abbreviation heap := (gmap loc UserGoals.t).

Definition alloc (h : heap) (v : UserGoals.t) : heap * loc :=
    let l := fresh (dom h) in (<[l := v]> h, l).

Definition write (f : UserGoals.t → UserGoals.t) (l : loc) (h : heap) : heap :=
    alter f l h.

Definition adjustedGoals_run (h : heap) (goals : loc) : option (heap * loc) :=
    src ← h !! goals;
    let '(h, g) := alloc h src in
    training ← UserGoals.isTrainingDay <$> h !! g;
    h ← (if training : bool then
           cal ← UserGoals.calories <$> h !! g;
           let h := write (UserGoals.set_calories (cal + 300)) g h in
           carb ← UserGoals.carbs <$> h !! g;
           Some (write (UserGoals.set_carbs (carb + 50)) g h)
         else Some h);
    st ← UserGoals.steps <$> h !! g;
    h ← (if 10000 <? st then
           carb ← UserGoals.carbs <$> h !! g;
           Some (write (UserGoals.set_carbs (carb + 30)) g h)
         else Some h);
    Some (h, g).
End Store.

(** ** Array helpers *)

Definition reduce {A B : Type} (f : B → A → B) (init : B) (l : list A) : B :=
  fold_left f l init.

Definition some {A : Type} (p : A → bool) (l : list A) : bool := existsb p l.

(** ** Dashboard totals ([Dashboard.tsx]) *)

Module Dashboard.
Section Totals.
Variable entries : list FoodEntry.t.

Definition totalCals : Z := reduce (λ acc e, acc + FoodEntry.calories e) 0 entries.
Definition totalProtein : Z := reduce (λ acc e, acc + FoodEntry.protein e) 0 entries.
Definition totalCarbs : Z := reduce (λ acc e, acc + FoodEntry.carbs e) 0 entries.
Definition totalFat : Z := reduce (λ acc e, acc + FoodEntry.fat e) 0 entries.

(** Micros: [e.fiber || 0] reads an absent field as [0]. *)
Definition totalFiber : Z :=
  reduce (λ acc e, acc + default 0 (FoodEntry.fiber e)) 0 entries.
Definition totalSalt : Z :=
  reduce (λ acc e, acc + default 0 (FoodEntry.salt e)) 0 entries.
Definition totalPotassium : Z :=
  reduce (λ acc e, acc + default 0 (FoodEntry.potassium e)) 0 entries.

(** The seven totals of the dashboard, as one profile. *)
Definition totals : Nutrients.t :=
  Nutrients.mk totalCals totalProtein totalCarbs totalFat
               totalFiber totalSalt totalPotassium.

Definition groupEntries (type : MealType) : list FoodEntry.t :=
  filter (λ e, FoodEntry.mealType e = type) entries.
End Totals.

(** The entries of the other meal slots (the complement of [groupEntries]). *)
Definition otherEntries (entries : list FoodEntry.t) (type : MealType) :
  list FoodEntry.t :=
  filter (λ e, FoodEntry.mealType e ≠ type) entries.
End Dashboard.

(** ** Meal completion request ([generateMealCompletion]) *)

Module Remaining.
Record t := mk {
    calories : Z;
    protein : Z;
    carbs : Z;
    fat : Z
  }.
End Remaining.

Module MealCompletion.
(** The [remaining] object literal, as a function of the four totals. *)
Definition remaining_of (goals : UserGoals.t)
  (totalCals totalProtein totalCarbs totalFat : Z) : Remaining.t :=
  Remaining.mk (Z.max 0 (UserGoals.calories goals - totalCals))
               (Z.max 0 (UserGoals.protein goals - totalProtein))
               (Z.max 0 (UserGoals.carbs goals - totalCarbs))
               (Z.max 0 (UserGoals.fat goals - totalFat)).

Section Request.
Variables (dailyLogs : list FoodEntry.t) (goals : UserGoals.t).
(** [time] is [new Date().getHours()]. *)
Variable time : Z.

Definition totalCals : Z := reduce (λ acc e, acc + FoodEntry.calories e) 0 dailyLogs.
Definition totalProtein : Z := reduce (λ acc e, acc + FoodEntry.protein e) 0 dailyLogs.
Definition totalCarbs : Z := reduce (λ acc e, acc + FoodEntry.carbs e) 0 dailyLogs.
Definition totalFat : Z := reduce (λ acc e, acc + FoodEntry.fat e) 0 dailyLogs.

Definition remaining : Remaining.t :=
  remaining_of goals totalCals totalProtein totalCarbs totalFat.

Definition hasBreakfast : bool :=
  some (λ e, bool_decide (FoodEntry.mealType e = Breakfast)) dailyLogs.
Definition hasLunch : bool :=
  some (λ e, bool_decide (FoodEntry.mealType e = Lunch)) dailyLogs.
Definition hasDinner : bool :=
  some (λ e, bool_decide (FoodEntry.mealType e = Dinner)) dailyLogs.

Definition nextMeal : MealType :=
  if negb hasBreakfast && (time <? 11) then Breakfast
  else if negb hasLunch && (time <? 15) then Lunch
  else if negb hasDinner then Dinner
  else Snack.
End Request.
End MealCompletion.

(** The rules of the next-meal selector as the specification words them:
    four rules in priority order, each guarded by the failure of the ones
    before it. *)
Definition noEntryFor (slot : MealType) (entries : list FoodEntry.t) : Prop :=
  ∀ e, e ∈ entries → FoodEntry.mealType e ≠ slot.

Inductive selectNextMeal (entries : list FoodEntry.t) (currentHour : Z) :
  MealType → Prop :=
| select_breakfast :
    noEntryFor Breakfast entries → currentHour < 11 →
    selectNextMeal entries currentHour Breakfast
| select_lunch :
    ¬ (noEntryFor Breakfast entries ∧ currentHour < 11) →
    noEntryFor Lunch entries → currentHour < 15 →
    selectNextMeal entries currentHour Lunch
| select_dinner :
    ¬ (noEntryFor Breakfast entries ∧ currentHour < 11) →
    ¬ (noEntryFor Lunch entries ∧ currentHour < 15) →
    noEntryFor Dinner entries →
    selectNextMeal entries currentHour Dinner
| select_snack :
    ¬ (noEntryFor Breakfast entries ∧ currentHour < 11) →
    ¬ (noEntryFor Lunch entries ∧ currentHour < 15) →
    ¬ noEntryFor Dinner entries →
    selectNextMeal entries currentHour Snack.

(** ** Saving an entry ([App.tsx], [handleSaveEntry]) *)

(** The updater passed to [setEntries]. *)
Definition handleSaveEntry (entry : FoodEntry.t) (prev : list FoodEntry.t) :
  list FoodEntry.t :=
  let exists_ := some (λ e, bool_decide (FoodEntry.id e = FoodEntry.id entry)) prev in
  if exists_ then
    map (λ e, if bool_decide (FoodEntry.id e = FoodEntry.id entry) then entry else e) prev
  else prev ++ [entry].

(** ** Dates

    A [Date] is an instant, in milliseconds since the epoch.  The local-time
    methods ([getDay], [getDate], [setDate], [setHours]) read it in the time
    zone of the environment, a fixed offset of [tz] minutes east of UTC
    (a change of offset within the week is not modelled); [toISOString]
    reads it in UTC. *)
Module Date.
Definition msPerDay : Z := 86400000.
Definition msPerMinute : Z := 60000.

(** The [YYYY-MM-DD] part of [toISOString()], as a UTC day number. *)
Definition isoDate (t : Z) : Z := t / msPerDay.

Section LocalTime.
Variable tz : Z.

(** The local calendar day of an instant, as a day number. *)
Definition localDay (t : Z) : Z := (t + tz * msPerMinute) / msPerDay.

(** [getDay()]: 0 = Sunday .. 6 = Saturday; day number 0 was a Thursday. *)
Definition getDay (t : Z) : Z := (localDay t + 4) mod 7.

(** [t.setDate(t.getDate() + k)]: the same local time of day, [k] local
    calendar days later (earlier when [k] is negative). *)
Definition addDays (t k : Z) : Z := t + k * msPerDay.

(** [t.setHours(0,0,0,0)]: local midnight of the local day of [t]. *)
Definition startOfDay (t : Z) : Z := localDay t * msPerDay - tz * msPerMinute.
End LocalTime.
End Date.

(** ** Weekly history ([App.tsx], [weeklyHistory]) *)

(** [Math.round]: the nearest integer, halves rounded up. *)
Definition Math_round (x : Q) : Z := Qfloor (x + (1 # 2)).

Definition dayNames : list string :=
  ["Mon"; "Tue"; "Wed"; "Thu"; "Fri"; "Sat"; "Sun"]%string.

(** [variance()], for the draw [r] that its call of [Math.random()] returns. *)
Definition variance (r : Q) : Q := (r * (4 # 10) - (2 # 10))%Q.

Section WeeklyHistory.
(** The environment: the time zone, the instant [new Date()] returns, and
    the successive results of [Math.random()]. *)
Variables (tz : Z) (now : Z) (random : nat → Q).
(** The state the memo depends on. *)
Variables (entries : list FoodEntry.t) (goals : UserGoals.t).

Definition today : Z := now.
Definition currentDay : Z := Date.getDay tz today.
Definition distanceToMonday : Z := if currentDay =? 0 then 6 else currentDay - 1.
Definition monday : Z :=
  Date.startOfDay tz (Date.addDays today (- distanceToMonday)).

(** The placeholder entry of a past day [i] whose date object is [d], for
    the draw [r]. *)
Definition mockEntry (i : nat) (d : Z) (r : Q) : FoodEntry.t :=
  let dailyCals :=
    Math_round (inject_Z (UserGoals.calories goals) * (1 + variance r))%Q in
  let p := Math_round ((inject_Z dailyCals * (3 # 10)) / 4)%Q in
  let c := Math_round ((inject_Z dailyCals * (4 # 10)) / 4)%Q in
  let f := Math_round ((inject_Z dailyCals * (3 # 10)) / 9)%Q in
  FoodEntry.mk ("mock-" +:+ pretty i) "Mock Entry" Snack d [] [] None None
               dailyCals p c f (Some 20) (Some 2000) (Some 3000).

(** One iteration of the loop, on the history built so far and the number
    of draws already taken from [Math.random]. *)
Definition weeklyHistory_body (st : list DayLog.t * nat) (i : nat) :
  list DayLog.t * nat :=
  let '(history, drawn) := st in
  let d := Date.addDays monday (Z.of_nat i) in
  let dateStr := Date.isoDate d in
  let isFuture := today <? d in
  let isToday := bool_decide (dateStr = Date.isoDate today) in
  let dayName := default ""%string (dayNames !! i) in
  if isFuture then
    (history ++ [DayLog.mk dateStr dayName []], drawn)
  else if isToday then
    (history ++ [DayLog.mk dateStr dayName entries], drawn)
  else
    (history ++ [DayLog.mk dateStr dayName [mockEntry i d (random drawn)]],
     S drawn).

Definition weeklyHistory : list DayLog.t :=
  fst (fold_left weeklyHistory_body (seq 0 7) ([], 0%nat)).
End WeeklyHistory.

(** Wednesday 2024-01-03, 10:00 in a zone one hour east of UTC
    (09:00 UTC); day 19725 since the epoch. *)
Definition wednesday_morning : Z := (19725 * 24 + 9) * 3600000.

Definition sample_entry (i : string) (slot : MealType) (cal p c f : Z) :
  FoodEntry.t :=
  FoodEntry.mk i "Meal" slot wednesday_morning [] [] None None cal p c f
               None None None.

Definition INITIAL_GOALS : UserGoals.t :=
  UserGoals.mk Recomposition 2200 180 200 70 false 8000 3000 30 2300 3500.

(** "An entry of the slot is present", the negation of [noEntryFor]. *)
Definition hasEntryFor (slot : MealType) (entries : list FoodEntry.t) : Prop :=
  ∃ e, e ∈ entries ∧ FoodEntry.mealType e = slot.

(** [remaining = max(0, goal - total)], with its three consequences. *)
Definition clamped (goal total r : Z) : Prop :=
  r = Z.max 0 (goal - total) ∧ 0 ≤ r ∧
  (goal ≤ total → r = 0) ∧ (total < goal → r = goal - total).

(** The sum of one field over a sequence of entries. *)
Definition sumOf (field : FoodEntry.t → Z) (l : list FoodEntry.t) : Z :=
  foldr Z.add 0 (field <$> l).

(** The fields the adjuster never assigns. *)
Definition sameOtherFields (a b : UserGoals.t) : Prop :=
  UserGoals.type a = UserGoals.type b ∧
  UserGoals.protein a = UserGoals.protein b ∧
  UserGoals.fat a = UserGoals.fat b ∧
  UserGoals.isTrainingDay a = UserGoals.isTrainingDay b ∧
  UserGoals.steps a = UserGoals.steps b ∧
  UserGoals.water a = UserGoals.water b ∧
  UserGoals.fiber a = UserGoals.fiber b ∧
  UserGoals.salt a = UserGoals.salt b ∧
  UserGoals.potassium a = UserGoals.potassium b.

(** The date object [d] of iteration [i] of the weekly loop. *)
Definition dayInstant (tz now : Z) (i : nat) : Z :=
  Date.addDays (monday tz now) (Z.of_nat i).

(** What the loop pushes for day [i], by the branch taken. *)
Inductive daySummary (tz now : Z) (random : nat → Q)
  (entries : list FoodEntry.t) (goals : UserGoals.t) (i : nat) :
  DayLog.t → Prop :=
| summary_future :
    now < dayInstant tz now i →
    daySummary tz now random entries goals i
      (DayLog.mk (Date.isoDate (dayInstant tz now i))
                 (default ""%string (dayNames !! i)) [])
| summary_today :
    ¬ now < dayInstant tz now i →
    Date.isoDate (dayInstant tz now i) = Date.isoDate now →
    daySummary tz now random entries goals i
      (DayLog.mk (Date.isoDate (dayInstant tz now i))
                 (default ""%string (dayNames !! i)) entries)
| summary_past (k : nat) :
    ¬ now < dayInstant tz now i →
    Date.isoDate (dayInstant tz now i) ≠ Date.isoDate now →
    daySummary tz now random entries goals i
      (DayLog.mk (Date.isoDate (dayInstant tz now i))
                 (default ""%string (dayNames !! i))
                 [mockEntry goals i (dayInstant tz now i) (random k)]).

(** The shape of a placeholder entry built from the variance [v]. *)
Definition isMockEntry (goals : UserGoals.t) (v : Q) (e : FoodEntry.t) : Prop :=
  FoodEntry.calories e =
    Math_round (inject_Z (UserGoals.calories goals) * (1 + v))%Q ∧
  FoodEntry.protein e =
    Math_round ((inject_Z (FoodEntry.calories e) * (3 # 10)) / 4)%Q ∧
  FoodEntry.carbs e =
    Math_round ((inject_Z (FoodEntry.calories e) * (4 # 10)) / 4)%Q ∧
  FoodEntry.fat e =
    Math_round ((inject_Z (FoodEntry.calories e) * (3 # 10)) / 9)%Q ∧
  FoodEntry.fiber e = Some 20 ∧
  FoodEntry.salt e = Some 2000 ∧
  FoodEntry.potassium e = Some 3000 ∧
  FoodEntry.mealType e = Snack ∧
  FoodEntry.tags e = [] ∧
  FoodEntry.inflammationFlags e = [].

(** A day's entries as logged live on the sample Wednesday. *)
Definition live_entries : list FoodEntry.t :=
  [sample_entry "a" Lunch 500 30 40 20].

(** ** Further handlers of [App.tsx] *)

(** The updater of [handleDeleteEntry]. *)
Definition handleDeleteEntry (id : string) (prev : list FoodEntry.t) :
  list FoodEntry.t :=
  filter (λ e, FoodEntry.id e ≠ id) prev.

(** The training switch of the profile view:
    [setGoals({...goals, isTrainingDay: !goals.isTrainingDay})]. *)
Definition toggleTrainingDay (goals : UserGoals.t) : UserGoals.t :=
  UserGoals.mk (UserGoals.type goals) (UserGoals.calories goals)
    (UserGoals.protein goals) (UserGoals.carbs goals) (UserGoals.fat goals)
    (negb (UserGoals.isTrainingDay goals)) (UserGoals.steps goals)
    (UserGoals.water goals) (UserGoals.fiber goals) (UserGoals.salt goals)
    (UserGoals.potassium goals).

(** [onAddWater]: the updater [prev => prev + amount] of the water intake. *)
Definition onAddWater (amount prev : Z) : Z := prev + amount.

(** The day names of the header date selector, indexed by [getDay()], and
    the name shown for the date [offset] days from now. *)
Definition headerDayNames : list string :=
  ["Sun"; "Mon"; "Tue"; "Wed"; "Thu"; "Fri"; "Sat"]%string.

Definition headerDayName (tz now offset : Z) : string :=
  let date := Date.addDays now offset in
  default ""%string (headerDayNames !! Z.to_nat (Date.getDay tz date)).

(** ** Dashboard gauges and cards ([Dashboard.tsx]) *)

Module MealCard.
Definition totalCals (entries : list FoodEntry.t) : Z :=
  reduce (λ acc e, acc + FoodEntry.calories e) 0 entries.
End MealCard.

(** [percent] of a macro pill and of a micro row; the quotient is exact.
    (For [max = 0] JavaScript yields an infinity or NaN, which the model
    does not represent.) *)
Module MacroPill.
Definition percent (current max : Z) : Q :=
  Qmin 100 (Qmax 0 ((inject_Z current / inject_Z max) * 100)).
End MacroPill.

Module MicroRow.
Definition percent (current max : Z) : Q :=
  Qmin 100 ((inject_Z current / inject_Z max) * 100).
End MicroRow.

Module Gauge.
Record datum := mk {
    name : string;
    value : Z;
    color : string
  }.

Definition set_value (v : Z) (d : datum) : datum := mk (name d) v (color d).
Definition set_color (c : string) (d : datum) : datum := mk (name d) (value d) c.

Section Gauges.
Variables (entries : list FoodEntry.t) (goals : UserGoals.t) (waterIntake : Z).

Definition remainingCals : Z :=
  UserGoals.calories goals - Dashboard.totalCals entries.

(** The array literal followed by the two assignments of the over-target
    branch. *)
Definition gaugeData : list datum :=
  let gaugeData :=
    [mk "Consumed" (Dashboard.totalCals entries) "#84cc16";
     mk "Remaining" (Z.max 0 remainingCals) "#1e293b"] in
  if remainingCals <? 0 then
    let gaugeData := alter (set_color "#ef4444") 0%nat gaugeData in
    alter (set_value 0) 1%nat gaugeData
  else gaugeData.

Definition waterRemaining : Z := Z.max 0 (UserGoals.water goals - waterIntake).

Definition waterData : list datum :=
  [mk "Drank" waterIntake "#3b82f6"; mk "Remaining" waterRemaining "#1e293b"].
End Gauges.
End Gauge.

(** ** Weekly statistics ([WeeklyStats.tsx]) *)

Module DayCard.
Section Card.
Variables (log : DayLog.t) (goals : UserGoals.t).

Definition totalCals : Z :=
  reduce (λ acc e, acc + FoodEntry.calories e) 0 (DayLog.entries log).
Definition totalPro : Z :=
  reduce (λ acc e, acc + FoodEntry.protein e) 0 (DayLog.entries log).
Definition totalCarbs : Z :=
  reduce (λ acc e, acc + FoodEntry.carbs e) 0 (DayLog.entries log).
Definition totalFat : Z :=
  reduce (λ acc e, acc + FoodEntry.fat e) 0 (DayLog.entries log).

Definition calsFromPro : Z := totalPro * 4.
Definition calsFromCarbs : Z := totalCarbs * 4.
Definition calsFromFat : Z := totalFat * 9.

Definition remaining : Z :=
  Z.max 0 (UserGoals.calories goals - (calsFromPro + calsFromCarbs + calsFromFat)).

(** The [value]s of the four ring segments, in the order of [data]. *)
Definition data : list Z := [calsFromCarbs; calsFromPro; calsFromFat; remaining].

Definition isEmptyDay : bool :=
  bool_decide (length (DayLog.entries log) = 0%nat).

(** [now] is the instant [new Date()] returns when the card renders. *)
Definition isToday (now : Z) : bool :=
  bool_decide (Date.isoDate now = DayLog.date log).

Definition percent : Z :=
  Z.min 100
    (Math_round ((inject_Z totalCals / inject_Z (UserGoals.calories goals)) * 100)%Q).
End Card.
End DayCard.

Module WeeklyStats.
Section Stats.
Variables (history : list DayLog.t) (goals : UserGoals.t).

Definition activeDays : list DayLog.t :=
  filter (λ d, (0 < length (DayLog.entries d))%nat) history.

Definition totalWeeklyCals : Z :=
  reduce (λ acc day,
            acc + reduce (λ eAcc e, eAcc + FoodEntry.calories e) 0
                         (DayLog.entries day))
         0 activeDays.

(** [activeDays.length || 1]. *)
Definition daysPassed : Z :=
  let n := Z.of_nat (length activeDays) in
  if n =? 0 then 1 else n.

Definition targetWeeklyCals : Z := UserGoals.calories goals * daysPassed.

(** [Math.round(totalWeeklyCals / daysPassed) || 0]. *)
Definition avgCals : Z :=
  let r := Math_round (inject_Z totalWeeklyCals / inject_Z daysPassed)%Q in
  if r =? 0 then 0 else r.

Definition diff : Z := targetWeeklyCals - totalWeeklyCals.
Definition isDeficit : bool := 0 <? diff.
End Stats.
End WeeklyStats.

(** ** Logger ([Logger.tsx]) *)

Module Logger.
Definition toggleTag (tag : string) (prev : list string) : list string :=
  if bool_decide (tag ∈ prev) then filter (λ t, t ≠ tag) prev
  else prev ++ [tag].

(** The default meal slot for the hour [h] of [new Date().getHours()]. *)
Definition autoMealType (h : Z) : MealType :=
  if (5 <=? h) && (h <? 11) then Breakfast
  else if (11 <=? h) && (h <? 15) then Lunch
  else if (15 <=? h) && (h <? 22) then Dinner
  else Snack.

(** The local clock of a [Date]: [getHours], [getMinutes] and
    [setHours(h, m, 0, 0)], in the zone [tz]. *)
Section Clock.
Variable tz : Z.

Definition localMs (t : Z) : Z := (t + tz * Date.msPerMinute) mod Date.msPerDay.
Definition getHours (t : Z) : Z := localMs t / 3600000.
Definition getMinutes (t : Z) : Z := (localMs t mod 3600000) / 60000.
Definition setHours (t h m : Z) : Z :=
  Date.localDay tz t * Date.msPerDay + h * 3600000 + m * 60000
  - tz * Date.msPerMinute.

(** [formatTime] and [getTimestampFromTime].  The [HH:MM] string, the two
    numbers padded to two digits, is kept as the pair of numbers that
    [split(':').map(Number)] reads back from it. *)
Definition formatTime (timestamp : Z) : Z * Z :=
  let d := timestamp in (getHours d, getMinutes d).

(** [now] is the instant [new Date()] returns. *)
Definition getTimestampFromTime (now : Z) (timeStr : Z * Z) : Z :=
  let '(h, m) := timeStr in
  let d := now in
  setHours d h m.
End Clock.
End Logger.

(** ** The review form of the logger ([Logger.tsx], editing) *)

Module LoggerForm.
Record ImageFile := mkImage {
    id : string;
    data : string;
    mimeType : string
  }.

(** The state of the form that [handleFinalSave] reads. *)
Record state := mk {
    images : list ImageFile;
    tags : list string;
    entryName : string;
    calories : Z;
    protein : Z;
    carbs : Z;
    fat : Z;
    fiber : Z;
    salt : Z;
    potassium : Z;
    insight : string;
    mealType : MealType;
    timeStr : Z * Z;
    inflammationFlags : list string
  }.

(** The initial values of the [useState] hooks, followed by the effect that
    picks the slot by the hour when no entry is being edited.  [now] is the
    instant of the first render. *)
Definition initialState (tz now : Z) (initialEntry : option FoodEntry.t) : state :=
  match initialEntry with
  | Some e =>
      mk [] (FoodEntry.tags e) (FoodEntry.name e)
         (FoodEntry.calories e) (FoodEntry.protein e) (FoodEntry.carbs e)
         (FoodEntry.fat e)
         (default 0 (FoodEntry.fiber e)) (default 0 (FoodEntry.salt e))
         (default 0 (FoodEntry.potassium e))
         (default ""%string (FoodEntry.insight e))
         (FoodEntry.mealType e)
         (Logger.formatTime tz (FoodEntry.timestamp e))
         (FoodEntry.inflammationFlags e)
  | None =>
      mk [] [] ""%string 0 0 0 0 0 0 0 ""%string
         (Logger.autoMealType (Logger.getHours tz now))
         (Logger.formatTime tz now) []
  end.

Definition dataUri (i : ImageFile) : string :=
  ("data:" +:+ mimeType i +:+ ";base64," +:+ data i)%string.

(** [handleFinalSave]: the entry handed to [onSave].  [now] is the instant
    of the save and [uuid] the result of [crypto.randomUUID()]. *)
Definition handleFinalSave (tz now : Z) (uuid : string)
  (initialEntry : option FoodEntry.t) (st : state) : FoodEntry.t :=
  FoodEntry.mk
    (match initialEntry with
     | Some e => if bool_decide (FoodEntry.id e = ""%string) then uuid
                 else FoodEntry.id e
     | None => uuid
     end)
    (entryName st) (mealType st)
    (Logger.getTimestampFromTime tz now (timeStr st))
    (tags st) (inflammationFlags st)
    (Some (insight st))
    (Some (match initialEntry ≫= FoodEntry.images with
           | Some imgs => imgs
           | None => map dataUri (images st)
           end))
    (calories st) (protein st) (carbs st) (fat st)
    (Some (fiber st)) (Some (salt st)) (Some (potassium st)).
End LoggerForm.

(** The nutrient payload of an entry, as the dashboard reads it. *)
Definition nutrientsOf (e : FoodEntry.t) : Nutrients.t :=
  Nutrients.mk (FoodEntry.calories e) (FoodEntry.protein e)
    (FoodEntry.carbs e) (FoodEntry.fat e)
    (default 0 (FoodEntry.fiber e)) (default 0 (FoodEntry.salt e))
    (default 0 (FoodEntry.potassium e)).

(** * Properties *)

(** ** Goal adjuster *)

Lemma adjustedGoals_calories (base : UserGoals.t) :
  UserGoals.calories (adjustedGoals base) =
  UserGoals.calories base + (if UserGoals.isTrainingDay base then 300 else 0).
Proof.
  unfold adjustedGoals.
  destruct (UserGoals.isTrainingDay base); cbn;
    destruct (10000 <? UserGoals.steps base); cbn; lia.
Qed.

Lemma adjustedGoals_carbs (base : UserGoals.t) :
  UserGoals.carbs (adjustedGoals base) =
  UserGoals.carbs base + (if UserGoals.isTrainingDay base then 50 else 0)
                       + (if bool_decide (UserGoals.steps base > 10000) then 30 else 0).
Proof.
  unfold adjustedGoals.
  destruct (UserGoals.isTrainingDay base); cbn;
    destruct (Z.ltb_spec 10000 (UserGoals.steps base)); cbn;
    case_bool_decide; cbn; lia.
Qed.

Lemma adjustedGoals_others (base : UserGoals.t) :
  sameOtherFields (adjustedGoals base) base.
Proof.
  unfold adjustedGoals, sameOtherFields.
  destruct (UserGoals.isTrainingDay base) eqn:Ht; cbn;
    destruct (10000 <? UserGoals.steps base); cbn; rewrite ?Ht; tauto.
Qed.

Lemma adjustedGoals_rest_day (base : UserGoals.t) :
  UserGoals.isTrainingDay base = false → UserGoals.steps base ≤ 10000 →
  adjustedGoals base = base.
Proof.
  intros Ht Hs. unfold adjustedGoals. rewrite Ht.
  destruct (Z.ltb_spec 10000 (UserGoals.steps base)); [lia | reflexivity].
Qed.

(** C1. The adjusted goals are the base goals with the additive modifiers
    applied: +300 kcal and +50 g carbs on a training day, a further +30 g
    carbs when [steps > 10000] (cumulative with the training bonus), no
    other field touched; at exactly 10000 steps the step bonus is absent. *)
Theorem adjustedGoals_modifiers (base : UserGoals.t) :
  UserGoals.calories (adjustedGoals base) =
    UserGoals.calories base + (if UserGoals.isTrainingDay base then 300 else 0) ∧
  UserGoals.carbs (adjustedGoals base) =
    UserGoals.carbs base + (if UserGoals.isTrainingDay base then 50 else 0)
                         + (if bool_decide (UserGoals.steps base > 10000) then 30 else 0) ∧
  sameOtherFields (adjustedGoals base) base ∧
  (UserGoals.steps base = 10000 →
   UserGoals.carbs (adjustedGoals base) =
     UserGoals.carbs base + (if UserGoals.isTrainingDay base then 50 else 0)).
Proof.
  split; [apply adjustedGoals_calories|].
  split; [apply adjustedGoals_carbs|].
  split; [apply adjustedGoals_others|].
  intros Hs. rewrite adjustedGoals_carbs.
  case_bool_decide; lia.
Qed.

Lemma adjustedGoals_modifiers_witness :
  UserGoals.carbs
    (adjustedGoals (UserGoals.mk Cut 2200 180 200 70 true 10000 3000 30 2300 3500))
  = 200 + 50.
Proof.
  exact (proj2 (proj2 (proj2 (adjustedGoals_modifiers
    (UserGoals.mk Cut 2200 180 200 70 true 10000 3000 30 2300 3500)))) eq_refl).
Defined.

(** The store-level run allocates one new object holding the adjusted goals
    and writes nowhere else. *)
Lemma adjustedGoals_run_spec (h : Store.heap) (goals : Store.loc)
  (base : UserGoals.t) :
  h !! goals = Some base →
  Store.adjustedGoals_run h goals =
    Some (<[fresh (dom h) := adjustedGoals base]> h, fresh (dom h)).
Proof.
  intros Hbase. unfold Store.adjustedGoals_run, Store.alloc, Store.write.
  rewrite Hbase. cbn.
  set (g := fresh (dom h)).
  unfold adjustedGoals.
  rewrite lookup_insert_eq. cbn.
  destruct (UserGoals.isTrainingDay base); cbn;
    repeat (rewrite ?alter_insert_eq, ?lookup_insert_eq; cbn);
    destruct (10000 <? UserGoals.steps base); cbn;
    repeat (rewrite ?alter_insert_eq, ?lookup_insert_eq; cbn);
    reflexivity.
Qed.

Lemma fresh_loc_unused (h : Store.heap) : h !! fresh (dom h) = None.
Proof. apply not_elem_of_dom, is_fresh. Qed.

(** C9. The adjuster never mutates its input: a run on a store where
    [goals] holds [base] returns a new object [g] holding the adjusted
    goals, and leaves every existing object, [goals] included, as it was; a
    second run on the resulting store yields an equal result and still
    leaves both [goals] and the first result untouched; every field of the
    result other than calories and carbs is that of [base], and off a
    training day with at most 10000 steps the result equals [base]. *)
Theorem adjustedGoals_frame (h : Store.heap) (goals : Store.loc)
  (base : UserGoals.t) :
  h !! goals = Some base →
  ∃ h1 g1,
    Store.adjustedGoals_run h goals = Some (h1, g1) ∧
    g1 ≠ goals ∧
    h1 !! g1 = Some (adjustedGoals base) ∧
    h1 !! goals = Some base ∧
    (∀ l, l ≠ g1 → h1 !! l = h !! l) ∧
    (∃ h2 g2,
       Store.adjustedGoals_run h1 goals = Some (h2, g2) ∧
       h2 !! g2 = h1 !! g1 ∧
       h2 !! g1 = h1 !! g1 ∧
       h2 !! goals = Some base) ∧
    sameOtherFields (adjustedGoals base) base ∧
    (UserGoals.isTrainingDay base = false → UserGoals.steps base ≤ 10000 →
     adjustedGoals base = base).
Proof.
  intros Hbase.
  pose proof (fresh_loc_unused h) as Hfresh.
  set (g1 := fresh (dom h)) in *.
  assert (Hne : g1 ≠ goals) by congruence.
  set (h1 := <[g1 := adjustedGoals base]> h).
  assert (Hbase1 : h1 !! goals = Some base).
  { unfold h1. by rewrite lookup_insert_ne. }
  exists h1, g1.
  split; [by apply adjustedGoals_run_spec|].
  split; [done|].
  split; [apply lookup_insert_eq|].
  split; [done|].
  split; [intros l Hl; unfold h1; by rewrite lookup_insert_ne|].
  split.
  - pose proof (fresh_loc_unused h1) as Hfresh1.
    set (g2 := fresh (dom h1)) in *.
    assert (g2 ≠ g1).
    { intros ->. unfold h1 in Hfresh1. by rewrite lookup_insert_eq in Hfresh1. }
    assert (g2 ≠ goals) by congruence.
    exists (<[g2 := adjustedGoals base]> h1), g2.
    split; [by apply adjustedGoals_run_spec|].
    rewrite lookup_insert_eq, !lookup_insert_ne by done.
    unfold h1 at 1. by rewrite lookup_insert_eq.
  - split; [apply adjustedGoals_others | apply adjustedGoals_rest_day].
Qed.

Lemma adjustedGoals_frame_witness :
  ∃ h1 g1,
    Store.adjustedGoals_run {[ 1%positive := INITIAL_GOALS ]} 1%positive =
      Some (h1, g1) ∧
    h1 !! 1%positive = Some INITIAL_GOALS.
Proof.
  destruct (adjustedGoals_frame {[ 1%positive := INITIAL_GOALS ]} 1%positive
              INITIAL_GOALS) as (h1 & g1 & Hrun & _ & _ & Hsame & _).
  - reflexivity.
  - exists h1, g1. split; assumption.
Defined.

(** ** Totals as sums *)

Lemma reduce_add_acc (field : FoodEntry.t → Z) (l : list FoodEntry.t) (a : Z) :
  reduce (λ acc e, acc + field e) a l = a + sumOf field l.
Proof.
  unfold reduce, sumOf. revert a.
  induction l as [|e l IH]; intros a; cbn; [lia|].
  rewrite IH. lia.
Qed.

Lemma reduce_add (field : FoodEntry.t → Z) (l : list FoodEntry.t) :
  reduce (λ acc e, acc + field e) 0 l = sumOf field l.
Proof. rewrite reduce_add_acc. lia. Qed.

Lemma sumOf_app (field : FoodEntry.t → Z) (l1 l2 : list FoodEntry.t) :
  sumOf field (l1 ++ l2) = sumOf field l1 + sumOf field l2.
Proof.
  unfold sumOf. induction l1 as [|e l1 IH]; cbn; [lia|].
  rewrite IH. lia.
Qed.

Lemma sumOf_perm (field : FoodEntry.t → Z) (l1 l2 : list FoodEntry.t) :
  l1 ≡ₚ l2 → sumOf field l1 = sumOf field l2.
Proof.
  unfold sumOf.
  induction 1 as [|e l1 l2 _ IH|e1 e2 l|l1 l2 l3 _ IH1 _ IH2]; cbn; lia.
Qed.

(** ** Remaining macros *)

Lemma clamped_max (goal total : Z) : clamped goal total (Z.max 0 (goal - total)).
Proof. unfold clamped. repeat split; lia. Qed.

(** C2. Each of the four fields of [remaining] is [max(0, goal - total)],
    where the total is the sum of that field over the day's entries: it is
    never negative, it is 0 once the total reaches the goal, and it is
    exactly [goal - total] below the goal.  The same holds of the
    [remaining] object for arbitrary totals. *)
Theorem remaining_clamped (goals : UserGoals.t) :
  (∀ tCals tProtein tCarbs tFat : Z,
     let r := MealCompletion.remaining_of goals tCals tProtein tCarbs tFat in
     clamped (UserGoals.calories goals) tCals (Remaining.calories r) ∧
     clamped (UserGoals.protein goals) tProtein (Remaining.protein r) ∧
     clamped (UserGoals.carbs goals) tCarbs (Remaining.carbs r) ∧
     clamped (UserGoals.fat goals) tFat (Remaining.fat r)) ∧
  (∀ dailyLogs : list FoodEntry.t,
     let r := MealCompletion.remaining dailyLogs goals in
     clamped (UserGoals.calories goals) (sumOf FoodEntry.calories dailyLogs)
             (Remaining.calories r) ∧
     clamped (UserGoals.protein goals) (sumOf FoodEntry.protein dailyLogs)
             (Remaining.protein r) ∧
     clamped (UserGoals.carbs goals) (sumOf FoodEntry.carbs dailyLogs)
             (Remaining.carbs r) ∧
     clamped (UserGoals.fat goals) (sumOf FoodEntry.fat dailyLogs)
             (Remaining.fat r)).
Proof.
  split.
  - intros tCals tProtein tCarbs tFat. cbn. repeat split; lia.
  - intros dailyLogs. cbn.
    unfold MealCompletion.totalCals, MealCompletion.totalProtein,
      MealCompletion.totalCarbs, MealCompletion.totalFat.
    rewrite !reduce_add.
    repeat apply conj; apply clamped_max.
Qed.

Lemma remaining_clamped_witness :
  Remaining.calories (MealCompletion.remaining_of INITIAL_GOALS 2500 90 150 40) = 0 ∧
  Remaining.protein (MealCompletion.remaining_of INITIAL_GOALS 2500 90 150 40) = 180 - 90.
Proof.
  pose proof (proj1 (remaining_clamped INITIAL_GOALS) 2500 90 150 40)
    as ((_ & _ & Hover & _) & (_ & _ & _ & Hunder) & _).
  split.
  - apply Hover. vm_compute. discriminate.
  - apply Hunder. reflexivity.
Defined.

(** C8. End to end: the base goals 2200/180/200/70 on a training day with
    11000 steps adjust to 2500/180/280/70, and for any entries totalling
    1200/90/150/40 the remaining macros against the adjusted goals are
    1300/90/130/30. *)
Theorem end_to_end_scenario (ty : GoalType) (water fiber salt potassium : Z)
  (dailyLogs : list FoodEntry.t) :
  let base :=
    UserGoals.mk ty 2200 180 200 70 true 11000 water fiber salt potassium in
  adjustedGoals base =
    UserGoals.mk ty 2500 180 280 70 true 11000 water fiber salt potassium ∧
  (sumOf FoodEntry.calories dailyLogs = 1200 →
   sumOf FoodEntry.protein dailyLogs = 90 →
   sumOf FoodEntry.carbs dailyLogs = 150 →
   sumOf FoodEntry.fat dailyLogs = 40 →
   MealCompletion.remaining dailyLogs (adjustedGoals base) =
     Remaining.mk 1300 90 130 30).
Proof.
  cbn zeta. split; [reflexivity|].
  intros Hcal Hpro Hcarb Hfat.
  unfold MealCompletion.remaining, MealCompletion.totalCals,
    MealCompletion.totalProtein, MealCompletion.totalCarbs,
    MealCompletion.totalFat.
  rewrite !reduce_add, Hcal, Hpro, Hcarb, Hfat. reflexivity.
Qed.

Lemma end_to_end_scenario_witness :
  MealCompletion.remaining
    [sample_entry "b" Breakfast 500 40 60 15; sample_entry "l" Lunch 700 50 90 25]
    (adjustedGoals (UserGoals.mk Recomposition 2200 180 200 70 true 11000
                                 3000 30 2300 3500)) =
  Remaining.mk 1300 90 130 30.
Proof.
  apply (end_to_end_scenario Recomposition 3000 30 2300 3500
           [sample_entry "b" Breakfast 500 40 60 15;
            sample_entry "l" Lunch 700 50 90 25]); reflexivity.
Defined.

(** ** Next-meal selector *)

Lemma some_slot_true (slot : MealType) (l : list FoodEntry.t) :
  some (λ e, bool_decide (FoodEntry.mealType e = slot)) l = true ↔
  hasEntryFor slot l.
Proof.
  unfold some, hasEntryFor. rewrite existsb_exists. split.
  - intros (e & Hin & He). exists e. split.
    + by apply list_elem_of_In.
    + by apply bool_decide_eq_true in He.
  - intros (e & Hin & He). exists e. split.
    + by apply list_elem_of_In.
    + by apply bool_decide_eq_true.
Qed.

Lemma hasEntryFor_not_none (slot : MealType) (l : list FoodEntry.t) :
  hasEntryFor slot l ↔ ¬ noEntryFor slot l.
Proof.
  unfold hasEntryFor, noEntryFor. split.
  - intros (e & Hin & He) Hno. by apply (Hno e).
  - intros Hno. induction l as [|e l IH].
    + exfalso. apply Hno. intros e He. by apply elem_of_nil in He.
    + destruct (decide (FoodEntry.mealType e = slot)) as [He|He].
      * exists e. split; [apply list_elem_of_here | done].
      * destruct IH as (e' & Hin & He').
        { intros Hl. apply Hno. intros x Hx.
          apply elem_of_cons in Hx as [->|Hx]; [done | by apply Hl]. }
        exists e'. split; [by apply list_elem_of_further | done].
Qed.

Lemma some_slot_false (slot : MealType) (l : list FoodEntry.t) :
  some (λ e, bool_decide (FoodEntry.mealType e = slot)) l = false ↔
  noEntryFor slot l.
Proof.
  rewrite <- not_true_iff_false, some_slot_true, hasEntryFor_not_none.
  split; [|tauto].
  intros Hnn e Hin He. apply Hnn. intros Hno. by apply (Hno e).
Qed.

(** The code takes the branch the rules select. *)
Lemma nextMeal_selected (entries : list FoodEntry.t) (h : Z) :
  selectNextMeal entries h (MealCompletion.nextMeal entries h).
Proof.
  unfold MealCompletion.nextMeal, MealCompletion.hasBreakfast,
    MealCompletion.hasLunch, MealCompletion.hasDinner.
  destruct (some _ entries) eqn:HB at 1;
    [apply some_slot_true, hasEntryFor_not_none in HB
    |apply some_slot_false in HB];
  (destruct (some _ entries) eqn:HL at 1;
    [apply some_slot_true, hasEntryFor_not_none in HL
    |apply some_slot_false in HL]);
  (destruct (some _ entries) eqn:HD at 1;
    [apply some_slot_true, hasEntryFor_not_none in HD
    |apply some_slot_false in HD]);
  destruct (Z.ltb_spec h 11); destruct (Z.ltb_spec h 15); cbn;
    first
      [ apply select_breakfast; (tauto || lia)
      | apply select_lunch; (tauto || lia)
      | apply select_dinner; (tauto || lia)
      | apply select_snack; (tauto || lia) ].
Qed.

(** The rules select at most one slot. *)
Lemma selectNextMeal_functional (entries : list FoodEntry.t) (h : Z)
  (m1 m2 : MealType) :
  selectNextMeal entries h m1 → selectNextMeal entries h m2 → m1 = m2.
Proof. intros H1 H2. destruct H1; destruct H2; (reflexivity || tauto). Qed.

(** C3 (as the code behaves). With no entries at 3 o'clock the first rule
    applies, since 3 < 11: the selector answers Breakfast, which is neither
    Dinner nor the Snack fallback. *)
Theorem nextMeal_empty_at_3 :
  MealCompletion.nextMeal [] 3 = Breakfast ∧
  MealCompletion.nextMeal [] 3 ≠ Snack.
Proof. split; [reflexivity | discriminate]. Qed.

(** C3 as stated fails: the answer for no entries at 3 o'clock is not
    Dinner. *)
Lemma nextMeal_empty_at_3_not_dinner :
  ¬ (MealCompletion.nextMeal [] 3 = Dinner ∧
     MealCompletion.nextMeal [] 3 ≠ Breakfast ∧
     MealCompletion.nextMeal [] 3 ≠ Snack).
Proof. intros [H _]. discriminate H. Qed.

(** C4. The selector returns the first matching rule of the priority list:
    Breakfast when none is logged and the hour is below 11; else Lunch when
    none is logged and the hour is below 15; else Dinner when none is logged,
    at any hour; else Snack.  So a day with a Breakfast entry and no Lunch
    entry gives Lunch at 9, and a day with Breakfast, Lunch and Dinner
    entries gives Snack. *)
Theorem nextMeal_priority (entries : list FoodEntry.t) (currentHour : Z) :
  (∀ m, selectNextMeal entries currentHour m ↔
        MealCompletion.nextMeal entries currentHour = m) ∧
  (hasEntryFor Breakfast entries → noEntryFor Lunch entries →
   MealCompletion.nextMeal entries 9 = Lunch) ∧
  (hasEntryFor Breakfast entries → hasEntryFor Lunch entries →
   hasEntryFor Dinner entries →
   MealCompletion.nextMeal entries currentHour = Snack).
Proof.
  split; [|split].
  - intros m. split.
    + intros Hm. apply (selectNextMeal_functional entries currentHour);
        [apply nextMeal_selected | exact Hm].
    + intros <-. apply nextMeal_selected.
  - intros HB HL.
    apply (selectNextMeal_functional entries 9); [apply nextMeal_selected|].
    apply select_lunch; [|exact HL|lia].
    apply hasEntryFor_not_none in HB. tauto.
  - intros HB HL HD.
    apply hasEntryFor_not_none in HB, HL, HD.
    apply (selectNextMeal_functional entries currentHour);
      [apply nextMeal_selected|].
    apply select_snack; tauto.
Qed.

Lemma nextMeal_priority_witness :
  MealCompletion.nextMeal [sample_entry "b" Breakfast 500 40 60 15] 9 = Lunch.
Proof.
  apply (proj1 (proj2 (nextMeal_priority
                         [sample_entry "b" Breakfast 500 40 60 15] 9))).
  - exists (sample_entry "b" Breakfast 500 40 60 15).
    split; [apply list_elem_of_here | reflexivity].
  - intros e He. apply list_elem_of_singleton in He as ->. discriminate.
Defined.

(** ** Aggregator *)

Lemma totals_sums (l : list FoodEntry.t) :
  Dashboard.totals l =
  Nutrients.mk (sumOf FoodEntry.calories l) (sumOf FoodEntry.protein l)
               (sumOf FoodEntry.carbs l) (sumOf FoodEntry.fat l)
               (sumOf (λ e, default 0 (FoodEntry.fiber e)) l)
               (sumOf (λ e, default 0 (FoodEntry.salt e)) l)
               (sumOf (λ e, default 0 (FoodEntry.potassium e)) l).
Proof.
  unfold Dashboard.totals, Dashboard.totalCals, Dashboard.totalProtein,
    Dashboard.totalCarbs, Dashboard.totalFat, Dashboard.totalFiber,
    Dashboard.totalSalt, Dashboard.totalPotassium.
  by rewrite !reduce_add.
Qed.

Lemma totals_app (l1 l2 : list FoodEntry.t) :
  Dashboard.totals (l1 ++ l2) =
  Nutrients.add (Dashboard.totals l1) (Dashboard.totals l2).
Proof. rewrite !totals_sums. unfold Nutrients.add. cbn. by rewrite !sumOf_app. Qed.

Lemma totals_perm (l1 l2 : list FoodEntry.t) :
  l1 ≡ₚ l2 → Dashboard.totals l1 = Dashboard.totals l2.
Proof.
  intros Hp. rewrite !totals_sums.
  by rewrite !(sumOf_perm _ l1 l2 Hp).
Qed.

Lemma group_other_perm (entries : list FoodEntry.t) (slot : MealType) :
  Dashboard.groupEntries entries slot ++ Dashboard.otherEntries entries slot
  ≡ₚ entries.
Proof.
  unfold Dashboard.groupEntries, Dashboard.otherEntries.
  induction entries as [|e l IH]; [done|].
  rewrite !filter_cons.
  destruct (decide (FoodEntry.mealType e = slot)) as [He|He].
  - rewrite decide_False by tauto. cbn. by rewrite IH.
  - rewrite decide_True by done.
    rewrite <- Permutation_middle. by rewrite IH.
Qed.

(** C5. The aggregate of no entries is the zero profile; the aggregate of
    any entries is the elementwise sum of the aggregate of the entries of a
    slot and the aggregate of the entries of the other slots; and the
    aggregate does not depend on the order of the entries. *)
Theorem totals_algebra :
  Dashboard.totals [] = Nutrients.zero ∧
  (∀ (entries : list FoodEntry.t) (slot : MealType),
     Dashboard.totals entries =
     Nutrients.add (Dashboard.totals (Dashboard.groupEntries entries slot))
                   (Dashboard.totals (Dashboard.otherEntries entries slot))) ∧
  (∀ entries entries' : list FoodEntry.t,
     entries ≡ₚ entries' → Dashboard.totals entries = Dashboard.totals entries').
Proof.
  split; [reflexivity|]. split.
  - intros entries slot. rewrite <- totals_app.
    apply totals_perm. symmetry. apply group_other_perm.
  - apply totals_perm.
Qed.

Lemma totals_algebra_witness :
  Dashboard.totals
    [sample_entry "b" Breakfast 500 40 60 15; sample_entry "l" Lunch 700 50 90 25] =
  Dashboard.totals
    [sample_entry "l" Lunch 700 50 90 25; sample_entry "b" Breakfast 500 40 60 15].
Proof.
  apply (proj2 (proj2 totals_algebra)). apply perm_swap.
Defined.

(** ** Saving an entry *)

Lemma some_id_false (entry : FoodEntry.t) (prev : list FoodEntry.t) :
  some (λ e, bool_decide (FoodEntry.id e = FoodEntry.id entry)) prev = false ↔
  FoodEntry.id entry ∉ FoodEntry.id <$> prev.
Proof.
  unfold some. induction prev as [|e l IH]; cbn.
  - split; [intros _; apply not_elem_of_nil | done].
  - rewrite orb_false_iff, IH, not_elem_of_cons, bool_decide_eq_false.
    split; intros [H1 H2]; split; auto.
Qed.

(** On a list without the id, the [map] of the update branch changes
    nothing. *)
Lemma replace_absent (entry : FoodEntry.t) (l : list FoodEntry.t) :
  FoodEntry.id entry ∉ FoodEntry.id <$> l →
  map (λ e, if bool_decide (FoodEntry.id e = FoodEntry.id entry)
            then entry else e) l = l.
Proof.
  induction l as [|e l IH]; cbn; [done|].
  rewrite not_elem_of_cons. intros [Hne Hl].
  rewrite bool_decide_eq_false_2 by auto. by rewrite IH.
Qed.

(** With pairwise distinct ids, the [map] of the update branch is the
    update of the one position holding the id. *)
Lemma replace_at (entry old : FoodEntry.t) (l : list FoodEntry.t) (i : nat) :
  NoDup (FoodEntry.id <$> l) →
  l !! i = Some old → FoodEntry.id old = FoodEntry.id entry →
  map (λ e, if bool_decide (FoodEntry.id e = FoodEntry.id entry)
            then entry else e) l = <[i := entry]> l.
Proof.
  revert i. induction l as [|e l IH]; intros i Hnd Hi Hid; [done|].
  cbn in Hnd. apply NoDup_cons in Hnd as [Hnotin Hnd].
  destruct i as [|i]; cbn in *.
  - injection Hi as ->.
    rewrite bool_decide_eq_true_2 by done.
    rewrite replace_absent; [done | by rewrite <- Hid].
  - rewrite bool_decide_eq_false_2.
    + by rewrite (IH i).
    + intros He. apply Hnotin. rewrite He, <- Hid.
      apply list_elem_of_fmap_2. by eapply list_elem_of_lookup_2.
Qed.

Lemma handleSaveEntry_present (entry old : FoodEntry.t)
  (prev : list FoodEntry.t) (i : nat) :
  NoDup (FoodEntry.id <$> prev) →
  prev !! i = Some old → FoodEntry.id old = FoodEntry.id entry →
  handleSaveEntry entry prev = <[i := entry]> prev.
Proof.
  intros Hnd Hi Hid. unfold handleSaveEntry.
  destruct (some _ prev) eqn:Hsome.
  - by apply (replace_at entry old).
  - apply some_id_false in Hsome. exfalso. apply Hsome.
    rewrite <- Hid. apply list_elem_of_fmap_2. by eapply list_elem_of_lookup_2.
Qed.

Lemma handleSaveEntry_absent (entry : FoodEntry.t) (prev : list FoodEntry.t) :
  FoodEntry.id entry ∉ FoodEntry.id <$> prev →
  handleSaveEntry entry prev = prev ++ [entry].
Proof.
  intros Hno. unfold handleSaveEntry.
  apply some_id_false in Hno. by rewrite Hno.
Qed.

Lemma handleSaveEntry_ids (entry : FoodEntry.t) (prev : list FoodEntry.t) :
  NoDup (FoodEntry.id <$> prev) →
  NoDup (FoodEntry.id <$> handleSaveEntry entry prev).
Proof.
  intros Hnd.
  destruct (decide (FoodEntry.id entry ∈ FoodEntry.id <$> prev)) as [Hin|Hno].
  - apply list_elem_of_fmap in Hin as (old & Hid & Hold).
    apply list_elem_of_lookup in Hold as (i & Hi).
    rewrite (handleSaveEntry_present entry old prev i) by done.
    rewrite list_fmap_insert, list_insert_id; [done|].
    by rewrite list_lookup_fmap, Hi, Hid.
  - rewrite handleSaveEntry_absent by done.
    rewrite fmap_app. apply NoDup_app. split; [done|]. split.
    + intros x Hx Hx'. apply list_elem_of_singleton in Hx'. by subst.
    + apply NoDup_singleton.
Qed.

(** C10. Saving is an upsert that keeps ids unique.  On a list with
    pairwise distinct ids: when position [i] holds an entry with the id of
    [entry], the result is the list with exactly position [i] replaced by
    [entry] (same length, every other position unchanged); when no element
    has that id, the result is the list with [entry] appended; and in both
    cases the ids of the result are pairwise distinct. *)
Theorem handleSaveEntry_upsert (prev : list FoodEntry.t) (entry : FoodEntry.t) :
  NoDup (FoodEntry.id <$> prev) →
  (∀ (i : nat) (old : FoodEntry.t),
     prev !! i = Some old → FoodEntry.id old = FoodEntry.id entry →
     handleSaveEntry entry prev = <[i := entry]> prev ∧
     length (handleSaveEntry entry prev) = length prev ∧
     handleSaveEntry entry prev !! i = Some entry ∧
     (∀ j : nat, j ≠ i → handleSaveEntry entry prev !! j = prev !! j)) ∧
  (FoodEntry.id entry ∉ FoodEntry.id <$> prev →
   handleSaveEntry entry prev = prev ++ [entry]) ∧
  NoDup (FoodEntry.id <$> handleSaveEntry entry prev).
Proof.
  intros Hnd. split; [|split].
  - intros i old Hi Hid.
    rewrite (handleSaveEntry_present entry old prev i) by done.
    split; [done|]. split; [apply length_insert|]. split.
    + apply list_lookup_insert_eq. by eapply lookup_lt_Some.
    + intros j Hj. by apply list_lookup_insert_ne.
  - apply handleSaveEntry_absent.
  - by apply handleSaveEntry_ids.
Qed.

Lemma handleSaveEntry_upsert_witness :
  handleSaveEntry (sample_entry "l" Lunch 650 45 80 20)
    [sample_entry "b" Breakfast 500 40 60 15; sample_entry "l" Lunch 700 50 90 25] =
  [sample_entry "b" Breakfast 500 40 60 15; sample_entry "l" Lunch 650 45 80 20].
Proof.
  refine (proj1 (proj1 (handleSaveEntry_upsert
    [sample_entry "b" Breakfast 500 40 60 15; sample_entry "l" Lunch 700 50 90 25]
    (sample_entry "l" Lunch 650 45 80 20) _) 1%nat
    (sample_entry "l" Lunch 700 50 90 25) eq_refl eq_refl)).
  apply (bool_decide_unpack _). vm_compute. exact I.
Defined.

(** ** Weekly history: the loop *)

Lemma weeklyHistory_loop (tz now : Z) (random : nat → Q)
  (entries : list FoodEntry.t) (goals : UserGoals.t) (n : nat) :
  Forall2 (daySummary tz now random entries goals) (seq 0 n)
    (fst (fold_left (weeklyHistory_body tz now random entries goals)
                    (seq 0 n) ([], 0%nat))).
Proof.
  induction n as [|n IH]; [constructor|].
  rewrite seq_S, fold_left_app. cbn [fold_left Nat.add].
  destruct (fold_left _ (seq 0 n) _) as [history drawn]. cbn [fst] in IH.
  unfold weeklyHistory_body at 1. fold (dayInstant tz now n). unfold today.
  destruct (Z.ltb_spec now (dayInstant tz now n)) as [Hfut|Hfut].
  - cbn [fst]. apply Forall2_app; [exact IH|].
    repeat constructor. exact Hfut.
  - case_bool_decide as Htoday; cbn [fst]; (apply Forall2_app; [exact IH|]).
    + repeat constructor; [lia | exact Htoday].
    + constructor; [|constructor]. apply summary_past; [lia | exact Htoday].
Qed.

Lemma weeklyHistory_days (tz now : Z) (random : nat → Q)
  (entries : list FoodEntry.t) (goals : UserGoals.t) :
  Forall2 (daySummary tz now random entries goals) (seq 0 7)
          (weeklyHistory tz now random entries goals).
Proof. apply weeklyHistory_loop. Qed.

Lemma weeklyHistory_length (tz now : Z) (random : nat → Q)
  (entries : list FoodEntry.t) (goals : UserGoals.t) :
  length (weeklyHistory tz now random entries goals) = 7%nat.
Proof.
  pose proof (weeklyHistory_days tz now random entries goals) as H.
  apply Forall2_length in H. by rewrite <- H.
Qed.

Lemma weeklyHistory_lookup (tz now : Z) (random : nat → Q)
  (entries : list FoodEntry.t) (goals : UserGoals.t) (i : nat) :
  (i < 7)%nat →
  ∃ dl, weeklyHistory tz now random entries goals !! i = Some dl ∧
        daySummary tz now random entries goals i dl.
Proof.
  intros Hi.
  pose proof (weeklyHistory_days tz now random entries goals) as H.
  destruct (Forall2_lookup_l _ _ _ i i H) as (dl & Hdl & Hsum).
  - by apply lookup_seq_lt.
  - by exists dl.
Qed.

(** ** Weekly history: calendar arithmetic *)

Lemma distanceToMonday_range (tz now : Z) : 0 ≤ distanceToMonday tz now ≤ 6.
Proof.
  unfold distanceToMonday, currentDay, Date.getDay.
  pose proof (Z.mod_pos_bound (Date.localDay tz (today now) + 4) 7).
  destruct (Z.eqb_spec ((Date.localDay tz (today now) + 4) mod 7) 0); lia.
Qed.

Lemma localDay_bounds (tz t : Z) :
  Date.localDay tz t * Date.msPerDay ≤ t + tz * Date.msPerMinute
  < (Date.localDay tz t + 1) * Date.msPerDay.
Proof.
  unfold Date.localDay, Date.msPerDay, Date.msPerMinute.
  Z.to_euclidean_division_equations. lia.
Qed.

Lemma localDay_shift (tz t k : Z) :
  Date.localDay tz (t + k * Date.msPerDay) = Date.localDay tz t + k.
Proof.
  unfold Date.localDay.
  replace (t + k * Date.msPerDay + tz * Date.msPerMinute)
    with (t + tz * Date.msPerMinute + k * Date.msPerDay) by lia.
  apply Z.div_add. discriminate.
Qed.

(** Day [i] of the loop is local midnight of the [i]-th day of the week
    that starts [distanceToMonday] days before today. *)
Lemma dayInstant_eq (tz now : Z) (i : nat) :
  dayInstant tz now i =
  (Date.localDay tz now - distanceToMonday tz now + Z.of_nat i) * Date.msPerDay
  - tz * Date.msPerMinute.
Proof.
  unfold dayInstant, monday, Date.startOfDay, Date.addDays, today.
  rewrite localDay_shift. lia.
Qed.

Lemma dayInstant_localDay (tz now : Z) (i : nat) :
  Date.localDay tz (dayInstant tz now i) =
  Date.localDay tz now - distanceToMonday tz now + Z.of_nat i.
Proof.
  rewrite dayInstant_eq. unfold Date.localDay at 1.
  replace (_ - tz * Date.msPerMinute + tz * Date.msPerMinute)
    with ((Date.localDay tz now - distanceToMonday tz now + Z.of_nat i)
          * Date.msPerDay) by lia.
  apply Z.div_mul. discriminate.
Qed.

(** The week starts on a Monday, and its days follow in weekday order. *)
Lemma dayInstant_weekday (tz now : Z) (i : nat) :
  Date.getDay tz (dayInstant tz now i) = (1 + Z.of_nat i) mod 7.
Proof.
  unfold Date.getDay. rewrite dayInstant_localDay.
  unfold distanceToMonday, currentDay, Date.getDay, today.
  set (L := Date.localDay tz now).
  destruct (Z.eqb_spec ((L + 4) mod 7) 0) as [H0|H0];
    Z.to_euclidean_division_equations; lia.
Qed.

Lemma dayInstant_future (tz now : Z) (i : nat) :
  now < dayInstant tz now i ↔ distanceToMonday tz now < Z.of_nat i.
Proof.
  rewrite dayInstant_eq.
  pose proof (localDay_bounds tz now) as Hb.
  unfold Date.msPerDay in *. split; intros H; nia.
Qed.

Lemma dayInstant_past_date (tz now : Z) (i : nat) :
  Z.of_nat i < distanceToMonday tz now →
  Date.isoDate (dayInstant tz now i) ≠ Date.isoDate now.
Proof.
  intros Hi. rewrite dayInstant_eq.
  pose proof (localDay_bounds tz now) as Hb.
  unfold Date.isoDate, Date.msPerDay in *.
  Z.to_euclidean_division_equations. nia.
Qed.

(** In UTC the date string of today's local midnight is today's. *)
Lemma dayInstant_today_utc (now : Z) (i : nat) :
  Z.of_nat i = distanceToMonday 0 now →
  Date.isoDate (dayInstant 0 now i) = Date.isoDate now.
Proof.
  intros Hi. rewrite dayInstant_eq, <- Hi.
  unfold Date.isoDate, Date.localDay, Date.msPerDay, Date.msPerMinute.
  Z.to_euclidean_division_equations. lia.
Qed.

(** ** Weekly history: the week and its buckets *)

Lemma daySummary_names (tz now : Z) (random : nat → Q)
  (entries : list FoodEntry.t) (goals : UserGoals.t)
  (idx : list nat) (h : list DayLog.t) :
  Forall2 (daySummary tz now random entries goals) idx h →
  DayLog.dayName <$> h = (λ i, default ""%string (dayNames !! i)) <$> idx ∧
  DayLog.date <$> h = (λ i, Date.isoDate (dayInstant tz now i)) <$> idx.
Proof.
  induction 1 as [|i dl idx h Hdl _ [IHn IHd]]; [done|].
  cbn. rewrite IHn, IHd. by destruct Hdl.
Qed.

(** X21. Seven summaries, labelled Mon..Sun, dated by the date strings of the
    seven local midnights that start on the Monday of today's week. *)
Lemma weeklyHistory_week (tz now : Z) (random : nat → Q)
  (entries : list FoodEntry.t) (goals : UserGoals.t) :
  let week := weeklyHistory tz now random entries goals in
  length week = 7%nat ∧
  DayLog.dayName <$> week = dayNames ∧
  DayLog.date <$> week =
    (λ i, Date.isoDate (dayInstant tz now i)) <$> seq 0 7 ∧
  (∀ i : nat, Date.getDay tz (dayInstant tz now i) = (1 + Z.of_nat i) mod 7) ∧
  Date.localDay tz (dayInstant tz now 0) =
    Date.localDay tz now -
    (if Date.getDay tz now =? 0 then 6 else Date.getDay tz now - 1).
Proof.
  cbn zeta.
  destruct (daySummary_names _ _ _ _ _ _ _
              (weeklyHistory_days tz now random entries goals)) as [Hn Hd].
  split; [apply weeklyHistory_length|].
  split; [by rewrite Hn|].
  split; [exact Hd|].
  split; [apply dayInstant_weekday|].
  rewrite dayInstant_localDay. unfold distanceToMonday, currentDay, today. lia.
Qed.

(** X22. Days strictly after today are empty, in every time zone. *)
Lemma weeklyHistory_future_empty (tz now : Z) (random : nat → Q)
  (entries : list FoodEntry.t) (goals : UserGoals.t) (i : nat) (dl : DayLog.t) :
  weeklyHistory tz now random entries goals !! i = Some dl →
  distanceToMonday tz now < Z.of_nat i →
  DayLog.entries dl = [].
Proof.
  intros Hdl Hi.
  assert (Hlt : (i < 7)%nat).
  { apply lookup_lt_Some in Hdl. by rewrite weeklyHistory_length in Hdl. }
  destruct (weeklyHistory_lookup tz now random entries goals i Hlt)
    as (dl' & Hdl' & Hsum).
  rewrite Hdl in Hdl'. injection Hdl' as <-.
  apply dayInstant_future in Hi.
  destruct Hsum; [reflexivity | contradiction | contradiction].
Qed.

(** When the environment's zone is UTC, today's summary holds the live
    entries. *)
Lemma weeklyHistory_today_utc (now : Z) (random : nat → Q)
  (entries : list FoodEntry.t) (goals : UserGoals.t) :
  ∃ dl, weeklyHistory 0 now random entries goals
          !! Z.to_nat (distanceToMonday 0 now) = Some dl ∧
        DayLog.entries dl = entries.
Proof.
  pose proof (distanceToMonday_range 0 now) as Hr.
  set (i := Z.to_nat (distanceToMonday 0 now)).
  assert (Hi : Z.of_nat i = distanceToMonday 0 now) by (unfold i; lia).
  destruct (weeklyHistory_lookup 0 now random entries goals i)
    as (dl & Hdl & Hsum); [lia|].
  exists dl. split; [exact Hdl|].
  pose proof (dayInstant_today_utc now i Hi) as Hsame.
  destruct Hsum as [Hfut| |k _ Hne]; [|reflexivity|contradiction].
  apply dayInstant_future in Hfut. lia.
Qed.

(** X23. East of UTC the date string of today's local midnight is yesterday's:
    once the local time of day has passed the zone offset (so that the UTC
    date of [now] is the local date), today's summary holds a placeholder
    entry instead of the live entries. *)
Lemma weeklyHistory_today_east (tz now : Z) (random : nat → Q)
  (entries : list FoodEntry.t) (goals : UserGoals.t) :
  0 < tz → tz * Date.msPerMinute ≤ Date.msPerDay →
  Date.isoDate now = Date.localDay tz now →
  ∃ (dl : DayLog.t) (k : nat),
    let i := Z.to_nat (distanceToMonday tz now) in
    weeklyHistory tz now random entries goals !! i = Some dl ∧
    DayLog.entries dl = [mockEntry goals i (dayInstant tz now i) (random k)].
Proof.
  intros Htz Hday Hlocal. cbn zeta.
  pose proof (distanceToMonday_range tz now) as Hr.
  set (i := Z.to_nat (distanceToMonday tz now)).
  assert (Hi : Z.of_nat i = distanceToMonday tz now) by (unfold i; lia).
  destruct (weeklyHistory_lookup tz now random entries goals i)
    as (dl & Hdl & Hsum); [lia|].
  destruct Hsum as [Hfut|_ Htoday|k _ _].
  - apply dayInstant_future in Hfut. lia.
  - exfalso. rewrite dayInstant_eq, Hlocal, Hi in Htoday.
    revert Htoday Htz Hday.
    generalize (Date.localDay tz now). intros L.
    unfold Date.isoDate, Date.msPerDay, Date.msPerMinute.
    intros Htoday Htz Hday.
    Z.to_euclidean_division_equations. lia.
  - eexists _, k. split; [exact Hdl | reflexivity].
Qed.

(** C6. On Wednesday 2024-01-03 at 10:00 in a zone one hour east of UTC,
    today is the third day of the week, every later day is empty, but the
    summary of today is dated 2024-01-02 (day 19724) and holds a placeholder
    entry: no summary of the week holds the live entries. *)
Theorem weeklyHistory_today_east_of_utc :
  let week :=
    weeklyHistory 60 wednesday_morning (λ _, 1 # 2) live_entries INITIAL_GOALS in
  length week = 7%nat ∧
  distanceToMonday 60 wednesday_morning = 2 ∧
  DayLog.entries <$> week !! 2%nat =
    Some [mockEntry INITIAL_GOALS 2 (dayInstant 60 wednesday_morning 2) (1 # 2)] ∧
  DayLog.date <$> week !! 2%nat = Some 19724 ∧
  Date.isoDate wednesday_morning = 19725 ∧
  Forall (λ dl, DayLog.entries dl ≠ live_entries) week.
Proof.
  cbn zeta. split; [apply weeklyHistory_length|].
  split; [reflexivity|].
  split; [vm_compute; reflexivity|].
  split; [vm_compute; reflexivity|].
  split; [reflexivity|].
  vm_compute. repeat constructor; discriminate.
Qed.

(** ** Weekly history: placeholder entries *)

Lemma Math_round_bounds (x : Q) :
  (x - (1 # 2) <= inject_Z (Math_round x))%Q ∧
  (inject_Z (Math_round x) <= x + (1 # 2))%Q.
Proof.
  unfold Math_round.
  pose proof (Qfloor_le (x + (1 # 2))) as Hle.
  pose proof (Qlt_floor (x + (1 # 2))) as Hlt.
  rewrite inject_Z_plus in Hlt.
  change (inject_Z 1) with 1%Q in Hlt.
  split; lra.
Qed.

Lemma variance_range (r : Q) :
  (0 <= r)%Q → (r < 1)%Q →
  (- (2 # 10) <= variance r)%Q ∧ (variance r < 2 # 10)%Q.
Proof. unfold variance. intros H0 H1. split; lra. Qed.

Lemma mockEntry_shape (goals : UserGoals.t) (i : nat) (d : Z) (r : Q) :
  isMockEntry goals (variance r) (mockEntry goals i d r).
Proof. unfold isMockEntry, mockEntry. cbn. repeat split. Qed.

(** The rounded calories stay within 20% of the goal, up to the half unit
    the rounding may add or remove. *)
Lemma mock_calories_bounds (gc : Z) (v : Q) :
  0 ≤ gc → (- (2 # 10) <= v)%Q → (v <= 2 # 10)%Q →
  (inject_Z gc * (8 # 10) - (1 # 2)
     <= inject_Z (Math_round (inject_Z gc * (1 + v))))%Q ∧
  (inject_Z (Math_round (inject_Z gc * (1 + v)))
     <= inject_Z gc * (12 # 10) + (1 # 2))%Q.
Proof.
  intros Hgc Hlo Hhi.
  destruct (Math_round_bounds (inject_Z gc * (1 + v))) as [Hl Hu].
  assert (Hg : (0 <= inject_Z gc)%Q).
  { change 0%Q with (inject_Z 0). by rewrite <- Zle_Qle. }
  split; nra.
Qed.

(** C7 (as the code behaves). Every day strictly before today holds exactly
    one placeholder entry: its calories are
    [round(goals.calories * (1 + variance))] for a variance in [-0.2, 0.2],
    its protein, carbs and fat are [round(30% / 4)], [round(40% / 4)] and
    [round(30% / 9)] of those calories, its micros are 20 g of fiber,
    2000 mg of salt and 3000 mg of potassium, its slot is Snack and it has
    no tags or inflammation flags.  For a non-negative calorie goal the
    calories are within 20% of the goal up to the rounding, that is between
    [0.8 * goal - 1/2] and [1.2 * goal + 1/2]. *)
Theorem weeklyHistory_past_days (tz now : Z) (random : nat → Q)
  (entries : list FoodEntry.t) (goals : UserGoals.t) (i : nat) :
  (∀ k, (0 <= random k)%Q ∧ (random k < 1)%Q) →
  Z.of_nat i < distanceToMonday tz now →
  ∃ (dl : DayLog.t) (e : FoodEntry.t) (v : Q),
    weeklyHistory tz now random entries goals !! i = Some dl ∧
    DayLog.entries dl = [e] ∧
    (- (2 # 10) <= v)%Q ∧ (v <= 2 # 10)%Q ∧
    isMockEntry goals v e ∧
    (0 ≤ UserGoals.calories goals →
     (inject_Z (UserGoals.calories goals) * (8 # 10) - (1 # 2)
        <= inject_Z (FoodEntry.calories e))%Q ∧
     (inject_Z (FoodEntry.calories e)
        <= inject_Z (UserGoals.calories goals) * (12 # 10) + (1 # 2))%Q).
Proof.
  intros Hrandom Hi.
  pose proof (distanceToMonday_range tz now) as Hr.
  destruct (weeklyHistory_lookup tz now random entries goals i)
    as (dl & Hdl & Hsum); [lia|].
  destruct Hsum as [Hfut|_ Htoday|k _ _].
  - apply dayInstant_future in Hfut. lia.
  - by apply dayInstant_past_date in Htoday.
  - destruct (Hrandom k) as [H0 H1].
    destruct (variance_range (random k) H0 H1) as [Hlo Hhi].
    eexists _, _, (variance (random k)).
    split; [exact Hdl|]. split; [reflexivity|].
    split; [exact Hlo|]. split; [lra|].
    split; [apply mockEntry_shape|].
    intros Hgc. apply mock_calories_bounds; [exact Hgc | exact Hlo | lra].
Qed.

Lemma weeklyHistory_past_days_witness :
  ∃ (dl : DayLog.t) (e : FoodEntry.t),
    weeklyHistory 0 wednesday_morning (λ _, 1 # 2) live_entries INITIAL_GOALS
      !! 0%nat = Some dl ∧
    DayLog.entries dl = [e] ∧
    FoodEntry.mealType e = Snack ∧
    (inject_Z 2200 * (8 # 10) - (1 # 2) <= inject_Z (FoodEntry.calories e))%Q.
Proof.
  destruct (weeklyHistory_past_days 0 wednesday_morning (λ _, 1 # 2)
              live_entries INITIAL_GOALS 0)
    as (dl & e & v & Hdl & He & _ & _ & Hshape & Hbound).
  - intros _. split; [discriminate | reflexivity].
  - reflexivity.
  - exists dl, e. split; [exact Hdl|]. split; [exact He|].
    split; [apply Hshape|]. apply Hbound. discriminate.
Defined.

(** C7 as stated fails on the 20% bound alone: with a goal of 2203 kcal
    and a draw of 0 the variance is -0.2 and the placeholder of Monday has
    [round(1762.4) = 1762] kcal, below 80% of the goal. *)
Lemma weeklyHistory_mock_below_80_percent :
  ∃ (dl : DayLog.t) (e : FoodEntry.t),
    weeklyHistory 0 wednesday_morning (λ _, 0%Q) live_entries
      (UserGoals.set_calories 2203 INITIAL_GOALS) !! 0%nat = Some dl ∧
    DayLog.entries dl = [e] ∧
    FoodEntry.calories e = 1762 ∧
    ¬ ((inject_Z 2203 * (8 # 10) <= inject_Z (FoodEntry.calories e))%Q ∧
       (inject_Z (FoodEntry.calories e) <= inject_Z 2203 * (12 # 10))%Q).
Proof.
  eexists _, _. split; [vm_compute; reflexivity|].
  split; [reflexivity|]. split; [reflexivity|].
  intros [Hlo _]. vm_compute in Hlo. apply Hlo. reflexivity.
Qed.

(** ** Deleting and saving entries *)

Lemma delete_absent (id : string) (prev : list FoodEntry.t) :
  id ∉ FoodEntry.id <$> prev → handleDeleteEntry id prev = prev.
Proof.
  unfold handleDeleteEntry. induction prev as [|e l IH]; [done|].
  rewrite fmap_cons, not_elem_of_cons. intros [Hne Hl].
  rewrite filter_cons_True by auto. by rewrite IH.
Qed.

Lemma delete_replaced (entry : FoodEntry.t) (l : list FoodEntry.t) :
  handleDeleteEntry (FoodEntry.id entry)
    (map (λ e, if bool_decide (FoodEntry.id e = FoodEntry.id entry)
               then entry else e) l) =
  handleDeleteEntry (FoodEntry.id entry) l.
Proof.
  unfold handleDeleteEntry. induction l as [|e l IH]; [done|].
  cbn [map]. case_bool_decide as He.
  - rewrite !filter_cons_False by tauto. exact IH.
  - rewrite !filter_cons_True by done. by rewrite IH.
Qed.

(** X1. Deleting by the id of an entry just saved undoes the save: the
    result is the previous list without the entries of that id, and the
    previous list itself when the id was new. *)
Theorem delete_after_save (entry : FoodEntry.t) (prev : list FoodEntry.t) :
  handleDeleteEntry (FoodEntry.id entry) (handleSaveEntry entry prev) =
    handleDeleteEntry (FoodEntry.id entry) prev ∧
  (FoodEntry.id entry ∉ FoodEntry.id <$> prev →
   handleDeleteEntry (FoodEntry.id entry) (handleSaveEntry entry prev) = prev).
Proof.
  assert (Hgen : handleDeleteEntry (FoodEntry.id entry) (handleSaveEntry entry prev)
                 = handleDeleteEntry (FoodEntry.id entry) prev).
  { unfold handleSaveEntry. destruct (some _ prev).
    - apply delete_replaced.
    - unfold handleDeleteEntry. rewrite filter_app.
      rewrite (filter_cons_False _ entry) by tauto.
      by rewrite filter_nil, app_nil_r. }
  split; [exact Hgen|].
  intros Hnew. rewrite Hgen. by apply delete_absent.
Qed.

Lemma delete_after_save_witness :
  handleDeleteEntry "l"
    (handleSaveEntry (sample_entry "l" Lunch 700 50 90 25)
                     [sample_entry "b" Breakfast 500 40 60 15]) =
  [sample_entry "b" Breakfast 500 40 60 15].
Proof.
  apply (proj2 (delete_after_save (sample_entry "l" Lunch 700 50 90 25)
                  [sample_entry "b" Breakfast 500 40 60 15])).
  apply (bool_decide_unpack _). vm_compute. exact I.
Defined.

Lemma delete_at (id : string) (old : FoodEntry.t) (l : list FoodEntry.t)
  (i : nat) :
  NoDup (FoodEntry.id <$> l) → l !! i = Some old → FoodEntry.id old = id →
  handleDeleteEntry id l = delete i l.
Proof.
  unfold handleDeleteEntry.
  revert i. induction l as [|e l IH]; intros i Hnd Hi Hid; [done|].
  rewrite fmap_cons in Hnd. apply NoDup_cons in Hnd as [Hnotin Hnd].
  destruct i as [|i]; cbn in Hi; cbn [delete list_delete].
  - injection Hi as ->. rewrite filter_cons_False by tauto.
    apply (delete_absent id l). by rewrite <- Hid.
  - rewrite filter_cons_True.
    + by rewrite (IH i).
    + intros He. apply Hnotin. rewrite He, <- Hid.
      apply list_elem_of_fmap_2. by eapply list_elem_of_lookup_2.
Qed.

(** X2. On a list with pairwise distinct ids, deleting the id held at
    position [i] removes exactly that position: the list is one shorter,
    the id no longer occurs and the remaining ids stay distinct.  Deleting
    an id that does not occur changes nothing. *)
Theorem handleDeleteEntry_removes (id : string) (prev : list FoodEntry.t) :
  NoDup (FoodEntry.id <$> prev) →
  (∀ (i : nat) (old : FoodEntry.t),
     prev !! i = Some old → FoodEntry.id old = id →
     handleDeleteEntry id prev = delete i prev ∧
     S (length (handleDeleteEntry id prev)) = length prev) ∧
  (id ∉ FoodEntry.id <$> prev → handleDeleteEntry id prev = prev) ∧
  (id ∉ FoodEntry.id <$> handleDeleteEntry id prev) ∧
  NoDup (FoodEntry.id <$> handleDeleteEntry id prev).
Proof.
  intros Hnd. split; [|split; [|split]].
  - intros i old Hi Hid.
    rewrite (delete_at id old prev i) by done. split; [done|].
    rewrite length_delete by eauto.
    apply lookup_lt_Some in Hi. lia.
  - apply delete_absent.
  - unfold handleDeleteEntry. intros Hin.
    apply list_elem_of_fmap in Hin as (e & He & Hin).
    apply list_elem_of_filter in Hin as [Hne _]. by apply Hne.
  - unfold handleDeleteEntry.
    eapply sublist_NoDup; [exact Hnd|].
    apply fmap_sublist, sublist_filter.
Qed.

Lemma handleDeleteEntry_removes_witness :
  handleDeleteEntry "b"
    [sample_entry "b" Breakfast 500 40 60 15; sample_entry "l" Lunch 700 50 90 25] =
  [sample_entry "l" Lunch 700 50 90 25].
Proof.
  refine (proj1 (proj1 (handleDeleteEntry_removes "b"
    [sample_entry "b" Breakfast 500 40 60 15; sample_entry "l" Lunch 700 50 90 25]
    _) 0%nat (sample_entry "b" Breakfast 500 40 60 15) eq_refl eq_refl)).
  apply (bool_decide_unpack _). vm_compute. exact I.
Defined.

(** ** Totals under saving and deleting *)

Lemma totals_cons (e : FoodEntry.t) (l : list FoodEntry.t) :
  Dashboard.totals (e :: l) = Nutrients.add (nutrientsOf e) (Dashboard.totals l).
Proof. rewrite !totals_sums. reflexivity. Qed.

Lemma totals_middle (l1 l2 : list FoodEntry.t) (e : FoodEntry.t) :
  Dashboard.totals (l1 ++ e :: l2) =
  Nutrients.add (nutrientsOf e) (Dashboard.totals (l1 ++ l2)).
Proof.
  rewrite <- totals_cons. apply totals_perm.
  symmetry. apply Permutation_middle.
Qed.

Lemma Nutrients_add_swap (a b c : Nutrients.t) :
  Nutrients.add (Nutrients.add a c) b = Nutrients.add (Nutrients.add b c) a.
Proof. unfold Nutrients.add. cbn. f_equal; lia. Qed.

(** X3. What a save does to the dashboard totals: a new entry adds its
    nutrients to every total; an update of the entry [old] replaces the
    contribution of [old] by that of the saved entry. *)
Theorem totals_after_save (prev : list FoodEntry.t) (entry : FoodEntry.t) :
  NoDup (FoodEntry.id <$> prev) →
  (FoodEntry.id entry ∉ FoodEntry.id <$> prev →
   Dashboard.totals (handleSaveEntry entry prev) =
     Nutrients.add (Dashboard.totals prev) (nutrientsOf entry)) ∧
  (∀ (i : nat) (old : FoodEntry.t),
     prev !! i = Some old → FoodEntry.id old = FoodEntry.id entry →
     Nutrients.add (Dashboard.totals (handleSaveEntry entry prev)) (nutrientsOf old) =
     Nutrients.add (Dashboard.totals prev) (nutrientsOf entry)).
Proof.
  intros Hnd. split.
  - intros Hnew. rewrite handleSaveEntry_absent by done.
    rewrite totals_app. reflexivity.
  - intros i old Hi Hid.
    rewrite (handleSaveEntry_present entry old prev i) by done.
    rewrite insert_take_drop by (by eapply lookup_lt_Some).
    rewrite <- (take_drop_middle prev i old Hi) at 3.
    rewrite !totals_middle.
    apply Nutrients_add_swap.
Qed.

Lemma totals_after_save_witness :
  Dashboard.totals
    (handleSaveEntry (sample_entry "l" Lunch 700 50 90 25)
                     [sample_entry "b" Breakfast 500 40 60 15]) =
  Nutrients.add (Dashboard.totals [sample_entry "b" Breakfast 500 40 60 15])
                (nutrientsOf (sample_entry "l" Lunch 700 50 90 25)).
Proof.
  refine (proj1 (totals_after_save [sample_entry "b" Breakfast 500 40 60 15]
                   (sample_entry "l" Lunch 700 50 90 25) _) _);
    apply (bool_decide_unpack _); vm_compute; exact I.
Defined.

(** X4. Deleting the entry [old] lowers every dashboard total by exactly
    the nutrients of [old]. *)
Theorem totals_after_delete (prev : list FoodEntry.t) (i : nat)
  (old : FoodEntry.t) :
  NoDup (FoodEntry.id <$> prev) → prev !! i = Some old →
  Dashboard.totals prev =
  Nutrients.add (nutrientsOf old)
                (Dashboard.totals (handleDeleteEntry (FoodEntry.id old) prev)).
Proof.
  intros Hnd Hi.
  rewrite (delete_at (FoodEntry.id old) old prev i) by done.
  rewrite delete_take_drop.
  rewrite <- (take_drop_middle prev i old Hi) at 1.
  apply totals_middle.
Qed.

Lemma totals_after_delete_witness :
  Dashboard.totals
    [sample_entry "b" Breakfast 500 40 60 15; sample_entry "l" Lunch 700 50 90 25] =
  Nutrients.add (nutrientsOf (sample_entry "l" Lunch 700 50 90 25))
    (Dashboard.totals
       (handleDeleteEntry "l"
          [sample_entry "b" Breakfast 500 40 60 15;
           sample_entry "l" Lunch 700 50 90 25])).
Proof.
  refine (totals_after_delete
    [sample_entry "b" Breakfast 500 40 60 15; sample_entry "l" Lunch 700 50 90 25]
    1%nat (sample_entry "l" Lunch 700 50 90 25) _ eq_refl).
  apply (bool_decide_unpack _). vm_compute. exact I.
Defined.

(** ** Meal cards *)

Lemma sumOf_cons (field : FoodEntry.t → Z) (e : FoodEntry.t)
  (l : list FoodEntry.t) :
  sumOf field (e :: l) = field e + sumOf field l.
Proof. reflexivity. Qed.

(** X5. The four meal cards split the day: every entry is listed on
    exactly one card, and the calorie totals of the Breakfast, Lunch, Dinner
    and Snacks cards add up to the dashboard's consumed calories. *)
Theorem meal_cards_partition (entries : list FoodEntry.t) :
  Dashboard.groupEntries entries Breakfast ++
  Dashboard.groupEntries entries Lunch ++
  Dashboard.groupEntries entries Dinner ++
  Dashboard.groupEntries entries Snack ≡ₚ entries ∧
  MealCard.totalCals (Dashboard.groupEntries entries Breakfast) +
  MealCard.totalCals (Dashboard.groupEntries entries Lunch) +
  MealCard.totalCals (Dashboard.groupEntries entries Dinner) +
  MealCard.totalCals (Dashboard.groupEntries entries Snack) =
  Dashboard.totalCals entries.
Proof.
  assert (Hperm :
    Dashboard.groupEntries entries Breakfast ++
    Dashboard.groupEntries entries Lunch ++
    Dashboard.groupEntries entries Dinner ++
    Dashboard.groupEntries entries Snack ≡ₚ entries).
  { unfold Dashboard.groupEntries.
    induction entries as [|e l IH]; [done|].
    rewrite !filter_cons.
    set (B := filter (λ x, FoodEntry.mealType x = Breakfast) l) in *.
    set (L := filter (λ x, FoodEntry.mealType x = Lunch) l) in *.
    set (D := filter (λ x, FoodEntry.mealType x = Dinner) l) in *.
    set (S := filter (λ x, FoodEntry.mealType x = Snack) l) in *.
    destruct (FoodEntry.mealType e) eqn:He;
      repeat (first [rewrite decide_True by done | rewrite decide_False by done]).
    - rewrite <- app_comm_cons. by rewrite IH.
    - rewrite <- app_comm_cons, <- Permutation_middle. by rewrite IH.
    - rewrite <- app_comm_cons, (app_assoc B L), <- Permutation_middle,
        <- app_assoc.
      by rewrite IH.
    - rewrite (app_assoc L D), (app_assoc B), <- Permutation_middle,
        <- !app_assoc.
      by rewrite IH. }
  split; [exact Hperm|].
  unfold MealCard.totalCals, Dashboard.totalCals. rewrite !reduce_add.
  rewrite <- (sumOf_perm FoodEntry.calories _ _ Hperm), !sumOf_app. lia.
Qed.

(** ** Gauges *)

(** X6. The calorie gauge always has two segments, the consumed calories
    and the calories remaining floored at 0, so that the ring adds up to the
    larger of goal and consumption; the consumed segment turns red exactly
    when consumption exceeds the goal. *)
Theorem gaugeData_segments (entries : list FoodEntry.t) (goals : UserGoals.t) :
  ∃ consumed remaining : Gauge.datum,
    Gauge.gaugeData entries goals = [consumed; remaining] ∧
    Gauge.value consumed = Dashboard.totalCals entries ∧
    Gauge.value remaining =
      Z.max 0 (UserGoals.calories goals - Dashboard.totalCals entries) ∧
    Gauge.value consumed + Gauge.value remaining =
      Z.max (UserGoals.calories goals) (Dashboard.totalCals entries) ∧
    (Gauge.color consumed = "#ef4444"%string ↔
     UserGoals.calories goals < Dashboard.totalCals entries).
Proof.
  unfold Gauge.gaugeData, Gauge.remainingCals.
  destruct (Z.ltb_spec (UserGoals.calories goals - Dashboard.totalCals entries) 0)
    as [Hover|Hunder]; cbn.
  - eexists _, _. split; [reflexivity|]. cbn.
    split; [lia|]. split; [lia|]. split; [lia|].
    split; [intros _; lia | intros _; reflexivity].
  - eexists _, _. split; [reflexivity|]. cbn.
    split; [lia|]. split; [lia|]. split; [lia|].
    split; [intros Hc; discriminate Hc | lia].
Qed.

(** X7. Drinking [amount] millilitres lowers the remaining water by that
    amount, floored at 0; the water ring adds up to the larger of goal and
    intake. *)
Theorem water_after_add (goals : UserGoals.t) (waterIntake amount : Z) :
  0 ≤ amount →
  Gauge.waterRemaining goals (onAddWater amount waterIntake) =
    Z.max 0 (Gauge.waterRemaining goals waterIntake - amount) ∧
  waterIntake + Gauge.waterRemaining goals waterIntake =
    Z.max (UserGoals.water goals) waterIntake.
Proof. unfold Gauge.waterRemaining, onAddWater. lia. Qed.

Lemma water_after_add_witness :
  Gauge.waterRemaining INITIAL_GOALS (onAddWater 500 2750) = 0.
Proof.
  rewrite (proj1 (water_after_add INITIAL_GOALS 2750 500 ltac:(lia))).
  reflexivity.
Defined.

(** ** Progress bars *)

Lemma ratio_ge_1 (current max : Z) :
  0 < max → max ≤ current → (1 <= inject_Z current / inject_Z max)%Q.
Proof.
  intros Hmax Hle. apply Qle_shift_div_l.
  - change 0%Q with (inject_Z 0). by rewrite <- Zlt_Qlt.
  - rewrite Qmult_1_l. by rewrite <- Zle_Qle.
Qed.

Lemma ratio_le_0 (current max : Z) :
  0 < max → current ≤ 0 → (inject_Z current / inject_Z max <= 0)%Q.
Proof.
  intros Hmax Hle. apply Qle_shift_div_r.
  - change 0%Q with (inject_Z 0). by rewrite <- Zlt_Qlt.
  - rewrite Qmult_0_l. change 0%Q with (inject_Z 0). by rewrite <- Zle_Qle.
Qed.

(** X8. For a non-zero target (a zero target makes the quotient an
    infinity or NaN) the width of a macro pill is a percentage between 0 and
    100: it is 100 once the total reaches a positive target
    and 0 for a total of 0 or less.  The width of a micro row is capped at
    100 as well but has no floor: below the cap it is the raw percentage. *)
Theorem progress_percent_bounds (current max : Z) :
  max ≠ 0 →
  (0 <= MacroPill.percent current max)%Q ∧
  (MacroPill.percent current max <= 100)%Q ∧
  (0 < max → max ≤ current → (MacroPill.percent current max == 100)%Q) ∧
  (0 < max → current ≤ 0 → (MacroPill.percent current max == 0)%Q) ∧
  (MicroRow.percent current max <= 100)%Q ∧
  (((inject_Z current / inject_Z max) * 100 <= 100)%Q →
   (MicroRow.percent current max == (inject_Z current / inject_Z max) * 100)%Q).
Proof.
  intros _. unfold MacroPill.percent, MicroRow.percent.
  set (x := ((inject_Z current / inject_Z max) * 100)%Q).
  destruct (Q.max_spec 0 x) as [[Hm1 Hm2]|[Hm1 Hm2]];
    destruct (Q.min_spec 100 (Qmax 0 x)) as [[Hn1 Hn2]|[Hn1 Hn2]];
    destruct (Q.min_spec 100 x) as [[Hr1 Hr2]|[Hr1 Hr2]];
    (split; [lra|]); (split; [lra|]);
    (split; [intros Hpos Hle; pose proof (ratio_ge_1 current max Hpos Hle);
             unfold x in *; lra|]);
    (split; [intros Hpos Hle; pose proof (ratio_le_0 current max Hpos Hle);
             unfold x in *; lra|]);
    (split; [lra|]); intros Hx; lra.
Qed.

Lemma progress_percent_bounds_witness :
  (MacroPill.percent 250 200 == 100)%Q.
Proof.
  apply (progress_percent_bounds 250 200); [discriminate | reflexivity |].
  vm_compute. discriminate.
Defined.

(** ** Training switch *)

(** X9. Flipping the training switch twice restores the goals; switching a
    rest day to a training day raises the effective calorie target by
    exactly 300 and the effective carb target by exactly 50, and leaves the
    effective protein and fat targets alone. *)
Theorem toggleTrainingDay_effect (goals : UserGoals.t) :
  toggleTrainingDay (toggleTrainingDay goals) = goals ∧
  (UserGoals.isTrainingDay goals = false →
   UserGoals.calories (adjustedGoals (toggleTrainingDay goals)) =
     UserGoals.calories (adjustedGoals goals) + 300 ∧
   UserGoals.carbs (adjustedGoals (toggleTrainingDay goals)) =
     UserGoals.carbs (adjustedGoals goals) + 50) ∧
  UserGoals.protein (adjustedGoals (toggleTrainingDay goals)) =
    UserGoals.protein (adjustedGoals goals) ∧
  UserGoals.fat (adjustedGoals (toggleTrainingDay goals)) =
    UserGoals.fat (adjustedGoals goals).
Proof.
  split; [|split; [|split]].
  - destruct goals. unfold toggleTrainingDay. cbn. by rewrite negb_involutive.
  - intros Hrest.
    rewrite !adjustedGoals_calories, !adjustedGoals_carbs.
    unfold toggleTrainingDay. cbn. rewrite Hrest. cbn. lia.
  - destruct (adjustedGoals_others (toggleTrainingDay goals)) as (_ & Hp & _).
    destruct (adjustedGoals_others goals) as (_ & Hp' & _).
    by rewrite Hp, Hp'.
  - destruct (adjustedGoals_others (toggleTrainingDay goals)) as (_ & _ & Hf & _).
    destruct (adjustedGoals_others goals) as (_ & _ & Hf' & _).
    by rewrite Hf, Hf'.
Qed.

Lemma toggleTrainingDay_effect_witness :
  UserGoals.calories (adjustedGoals (toggleTrainingDay INITIAL_GOALS)) =
  UserGoals.calories (adjustedGoals INITIAL_GOALS) + 300.
Proof.
  apply (proj1 (proj2 (toggleTrainingDay_effect INITIAL_GOALS))). reflexivity.
Defined.

(** ** Logger: default slot and context tags *)

(** X10. On a day without entries the logger's default slot and the
    chef's next meal agree from 5 to 21 o'clock; before 5 and from 22 on the
    logger defaults to Snack, which the chef never proposes for an empty
    day. *)
Theorem autoMealType_vs_nextMeal (h : Z) :
  (5 ≤ h < 22 → Logger.autoMealType h = MealCompletion.nextMeal [] h) ∧
  (h < 5 ∨ 22 ≤ h →
   Logger.autoMealType h = Snack ∧ MealCompletion.nextMeal [] h ≠ Snack).
Proof.
  unfold Logger.autoMealType, MealCompletion.nextMeal,
    MealCompletion.hasBreakfast, MealCompletion.hasLunch,
    MealCompletion.hasDinner. cbn.
  destruct (Z.leb_spec 5 h); destruct (Z.ltb_spec h 11);
    destruct (Z.leb_spec 11 h); destruct (Z.ltb_spec h 15);
    destruct (Z.leb_spec 15 h); destruct (Z.ltb_spec h 22); cbn;
    (split; [intros ?|intros ?; split]);
    first [reflexivity | discriminate | lia].
Qed.

Lemma autoMealType_vs_nextMeal_witness :
  Logger.autoMealType 12 = MealCompletion.nextMeal [] 12 ∧
  MealCompletion.nextMeal [] 23 ≠ Snack.
Proof.
  split.
  - apply (proj1 (autoMealType_vs_nextMeal 12)). lia.
  - apply (proj2 (autoMealType_vs_nextMeal 23)). lia.
Defined.

Lemma filter_all {A : Type} (P : A → Prop) `{!∀ x, Decision (P x)}
  (l : list A) :
  Forall P l → filter P l = l.
Proof.
  induction 1 as [|x l Hx _ IH]; [done|].
  rewrite filter_cons_True by done. by rewrite IH.
Qed.

Lemma filter_none {A : Type} (P : A → Prop) `{!∀ x, Decision (P x)}
  (l : list A) :
  Forall (λ x, ¬ P x) l → filter P l = [].
Proof.
  induction 1 as [|x l Hx _ IH]; [done|].
  by rewrite filter_cons_False.
Qed.

(** X11. Toggling a context tag flips whether the tag is selected and
    nothing else: every other tag is selected after the toggle exactly when
    it was before, and a selection without duplicates stays without
    duplicates. *)
Theorem toggleTag_flips (tag : string) (prev : list string) :
  (tag ∈ Logger.toggleTag tag prev ↔ tag ∉ prev) ∧
  (∀ t, t ≠ tag → (t ∈ Logger.toggleTag tag prev ↔ t ∈ prev)) ∧
  (NoDup prev → NoDup (Logger.toggleTag tag prev)).
Proof.
  unfold Logger.toggleTag. case_bool_decide as Hin.
  - split; [|split].
    + rewrite list_elem_of_filter. tauto.
    + intros t Ht. rewrite list_elem_of_filter. tauto.
    + apply NoDup_filter.
  - split; [|split].
    + rewrite elem_of_app, list_elem_of_singleton. tauto.
    + intros t Ht. rewrite elem_of_app, list_elem_of_singleton. tauto.
    + intros Hnd. apply NoDup_app. split; [done|]. split.
      * intros x Hx Hx'. apply list_elem_of_singleton in Hx'. by subst.
      * apply NoDup_singleton.
Qed.

Lemma toggleTag_flips_witness :
  NoDup (Logger.toggleTag "Cheat Meal" ["Pre-Workout"; "Cheat Meal"]%string).
Proof.
  apply (proj2 (proj2 (toggleTag_flips "Cheat Meal"
                         ["Pre-Workout"; "Cheat Meal"]%string))).
  apply (bool_decide_unpack _). vm_compute. exact I.
Defined.

(** X12. Selecting a tag and deselecting it again restores the selection
    as it was. *)
Theorem toggleTag_twice (tag : string) (prev : list string) :
  tag ∉ prev →
  Logger.toggleTag tag (Logger.toggleTag tag prev) = prev.
Proof.
  intros Hno. unfold Logger.toggleTag.
  rewrite (bool_decide_eq_false_2 _ Hno).
  rewrite bool_decide_eq_true_2
    by (rewrite elem_of_app, list_elem_of_singleton; auto).
  rewrite filter_app, (filter_cons_False _ tag) by tauto.
  rewrite filter_nil, app_nil_r.
  apply filter_all. apply Forall_forall. intros t Ht ->. by apply Hno.
Qed.

Lemma toggleTag_twice_witness :
  Logger.toggleTag "Late Night"
    (Logger.toggleTag "Late Night" ["Pre-Workout"]%string) =
  ["Pre-Workout"]%string.
Proof.
  apply toggleTag_twice.
  intros Hin. apply list_elem_of_singleton in Hin. discriminate Hin.
Defined.

(** ** Logger: the time of an entry *)

Lemma clock_ranges (tz t : Z) :
  0 ≤ Logger.getHours tz t < 24 ∧ 0 ≤ Logger.getMinutes tz t < 60.
Proof.
  unfold Logger.getHours, Logger.getMinutes, Logger.localMs,
    Date.msPerDay, Date.msPerMinute.
  Z.to_euclidean_division_equations. lia.
Qed.

Lemma formatTime_of_setHours (tz now h m : Z) :
  0 ≤ h < 24 → 0 ≤ m < 60 →
  Logger.formatTime tz (Logger.getTimestampFromTime tz now (h, m)) = (h, m).
Proof.
  intros Hh Hm.
  unfold Logger.formatTime, Logger.getTimestampFromTime, Logger.setHours,
    Logger.getHours, Logger.getMinutes, Logger.localMs.
  set (L := Date.localDay tz now).
  replace (L * Date.msPerDay + h * 3600000 + m * 60000
           - tz * Date.msPerMinute + tz * Date.msPerMinute)
    with (h * 3600000 + m * 60000 + L * Date.msPerDay) by lia.
  unfold Date.msPerDay. rewrite Z.mod_add by discriminate.
  rewrite (Z.mod_small (h * 3600000 + m * 60000)) by lia.
  f_equal.
  - Z.to_euclidean_division_equations. lia.
  - Z.to_euclidean_division_equations. lia.
Qed.

(** X13. The time field of the logger keeps hour and minute only.  A time
    [h:m] entered in the form is read back unchanged from the timestamp it
    produces.  Saving an entry re-dates it: the new timestamp lies on the
    local day of the save and shows the same hour and minute as the old
    one; when the entry was of that same day, the new timestamp is the old
    one with its seconds and milliseconds dropped. *)
Theorem timestamp_round_trip (tz now timestamp : Z) :
  let saved :=
    Logger.getTimestampFromTime tz now (Logger.formatTime tz timestamp) in
  (∀ h m : Z, 0 ≤ h < 24 → 0 ≤ m < 60 →
     Logger.formatTime tz (Logger.getTimestampFromTime tz now (h, m)) = (h, m)) ∧
  Date.localDay tz saved = Date.localDay tz now ∧
  Logger.formatTime tz saved = Logger.formatTime tz timestamp ∧
  (Date.localDay tz timestamp = Date.localDay tz now →
   saved ≤ timestamp < saved + 60000).
Proof.
  cbn zeta. pose proof (clock_ranges tz timestamp) as [Hh Hm].
  split; [apply formatTime_of_setHours|].
  split; [|split].
  - unfold Logger.formatTime, Logger.getTimestampFromTime, Logger.setHours.
    set (L := Date.localDay tz now).
    set (h := Logger.getHours tz timestamp) in *.
    set (m := Logger.getMinutes tz timestamp) in *.
    unfold Date.localDay at 1.
    replace (L * Date.msPerDay + h * 3600000 + m * 60000
             - tz * Date.msPerMinute + tz * Date.msPerMinute)
      with (h * 3600000 + m * 60000 + L * Date.msPerDay) by lia.
    unfold Date.msPerDay. rewrite Z.div_add by discriminate.
    rewrite (Z.div_small (h * 3600000 + m * 60000)) by lia. lia.
  - unfold Logger.formatTime at 2.
    by apply formatTime_of_setHours.
  - intros Hday.
    unfold Logger.formatTime, Logger.getTimestampFromTime, Logger.setHours.
    rewrite <- Hday.
    unfold Logger.getHours, Logger.getMinutes, Logger.localMs, Date.localDay,
      Date.msPerDay, Date.msPerMinute.
    Z.to_euclidean_division_equations. lia.
Qed.

Lemma timestamp_round_trip_witness :
  Logger.formatTime 60 (Logger.getTimestampFromTime 60 wednesday_morning (7, 5))
  = (7, 5).
Proof.
  apply (proj1 (timestamp_round_trip 60 wednesday_morning 0)); lia.
Defined.

(** ** Header date selector *)

Lemma getDay_shift (tz t k : Z) :
  Date.getDay tz (Date.addDays t k) = (Date.getDay tz t + k) mod 7.
Proof.
  unfold Date.getDay, Date.addDays. rewrite localDay_shift.
  Z.to_euclidean_division_equations. lia.
Qed.

(** X14. The weekly log and the header name the days alike: the label of
    the card [k] places from today's in the weekly log is the day name the
    header shows for the date [k] days from today. *)
Theorem week_labels_match_header (tz now k : Z) :
  0 ≤ distanceToMonday tz now + k ≤ 6 →
  dayNames !! Z.to_nat (distanceToMonday tz now + k) =
  Some (headerDayName tz now k).
Proof.
  intros Hk. unfold headerDayName. rewrite getDay_shift.
  unfold distanceToMonday, currentDay, today in *.
  pose proof (Z.mod_pos_bound (Date.localDay tz now + 4) 7 ltac:(lia)) as Hg.
  fold (Date.getDay tz now) in Hg. revert Hk.
  generalize (Date.getDay tz now) Hg. intros g Hg' Hk.
  assert (Hcases : g = 0 ∨ g = 1 ∨ g = 2 ∨ g = 3 ∨ g = 4 ∨ g = 5 ∨ g = 6) by lia.
  destruct Hcases as [->|[->|[->|[->|[->|[->| ->]]]]]]; cbn in Hk |- *;
    (assert (Hks : k = -6 ∨ k = -5 ∨ k = -4 ∨ k = -3 ∨ k = -2 ∨ k = -1 ∨ k = 0 ∨
                   k = 1 ∨ k = 2 ∨ k = 3 ∨ k = 4 ∨ k = 5 ∨ k = 6) by lia);
    destruct Hks as [->|[->|[->|[->|[->|[->|[->|[->|[->|[->|[->|[->| ->]]]]]]]]]]]];
    first [lia | reflexivity].
Qed.

Lemma week_labels_match_header_witness :
  dayNames !! 2%nat = Some (headerDayName 60 wednesday_morning 0).
Proof.
  apply (week_labels_match_header 60 wednesday_morning 0).
  vm_compute. split; discriminate.
Defined.

(** ** Weekly statistics *)

Lemma weekly_reduce_acc (days : list DayLog.t) (a : Z) :
  reduce (λ acc day,
            acc + reduce (λ eAcc e, eAcc + FoodEntry.calories e) 0
                         (DayLog.entries day)) a days =
  a + foldr Z.add 0 ((λ d, sumOf FoodEntry.calories (DayLog.entries d)) <$> days).
Proof.
  unfold reduce at 1. revert a.
  induction days as [|d l IH]; intros a; cbn; [lia|].
  rewrite IH, reduce_add. lia.
Qed.

Lemma weekly_sum_active (history : list DayLog.t) :
  foldr Z.add 0 ((λ d, sumOf FoodEntry.calories (DayLog.entries d))
                   <$> WeeklyStats.activeDays history) =
  foldr Z.add 0 ((λ d, sumOf FoodEntry.calories (DayLog.entries d)) <$> history).
Proof.
  unfold WeeklyStats.activeDays.
  induction history as [|d l IH]; [done|].
  rewrite filter_cons. destruct (decide _) as [Hact|Hact]; cbn; rewrite IH.
  - done.
  - destruct (DayLog.entries d) as [|e es]; [done|]. cbn in Hact. lia.
Qed.

Lemma daysPassed_positive (history : list DayLog.t) :
  1 ≤ WeeklyStats.daysPassed history.
Proof.
  unfold WeeklyStats.daysPassed. cbn zeta.
  destruct (Z.eqb_spec (Z.of_nat (length (WeeklyStats.activeDays history))) 0);
    lia.
Qed.

(** X15. The weekly summary never divides by zero: the number of days
    passed is at least 1.  The weekly calories are the calories of all
    entries of the week, so with the goal scaled by the days passed the net
    status is [goal * days - calories]; for a week without any entry the
    average is 0 and the net status is one day's goal. *)
Theorem weekly_summary (history : list DayLog.t) (goals : UserGoals.t) :
  1 ≤ WeeklyStats.daysPassed history ∧
  WeeklyStats.totalWeeklyCals history =
    foldr Z.add 0
      ((λ d, sumOf FoodEntry.calories (DayLog.entries d)) <$> history) ∧
  (Forall (λ d, DayLog.entries d = []) history →
   WeeklyStats.daysPassed history = 1 ∧
   WeeklyStats.avgCals history = 0 ∧
   WeeklyStats.diff history goals = UserGoals.calories goals).
Proof.
  split; [apply daysPassed_positive|].
  assert (Htotal : WeeklyStats.totalWeeklyCals history =
    foldr Z.add 0
      ((λ d, sumOf FoodEntry.calories (DayLog.entries d)) <$> history)).
  { unfold WeeklyStats.totalWeeklyCals.
    rewrite weekly_reduce_acc, weekly_sum_active. lia. }
  split; [exact Htotal|].
  intros Hempty.
  assert (Hnone : WeeklyStats.activeDays history = []).
  { unfold WeeklyStats.activeDays. apply filter_none.
    eapply Forall_impl; [exact Hempty|]. intros d ->. cbn. lia. }
  assert (Hzero : WeeklyStats.totalWeeklyCals history = 0).
  { unfold WeeklyStats.totalWeeklyCals. by rewrite Hnone. }
  assert (Hdays : WeeklyStats.daysPassed history = 1).
  { unfold WeeklyStats.daysPassed. by rewrite Hnone. }
  split; [exact Hdays|]. split.
  - unfold WeeklyStats.avgCals. rewrite Hzero, Hdays. reflexivity.
  - unfold WeeklyStats.diff, WeeklyStats.targetWeeklyCals.
    rewrite Hzero, Hdays. lia.
Qed.

Lemma weekly_summary_witness :
  WeeklyStats.avgCals [DayLog.mk 19723 "Mon" []; DayLog.mk 19724 "Tue" []] = 0.
Proof.
  apply (proj2 (proj2 (weekly_summary
    [DayLog.mk 19723 "Mon" []; DayLog.mk 19724 "Tue" []] INITIAL_GOALS))).
  repeat constructor.
Defined.

(** The active days of the built week: every day before today, and today
    when its summary has entries. *)
Lemma activeDays_of_week (tz now : Z) (random : nat → Q)
  (entries : list FoodEntry.t) (goals : UserGoals.t) :
  let week := weeklyHistory tz now random entries goals in
  let d := Z.to_nat (distanceToMonday tz now) in
  ∃ dl : DayLog.t,
    week !! d = Some dl ∧
    daySummary tz now random entries goals d dl ∧
    WeeklyStats.activeDays week =
      take d week ++ WeeklyStats.activeDays [dl] ∧
    length (take d week) = d.
Proof.
  cbn zeta.
  pose proof (distanceToMonday_range tz now) as Hr.
  set (d := Z.to_nat (distanceToMonday tz now)).
  set (week := weeklyHistory tz now random entries goals).
  pose proof (weeklyHistory_days tz now random entries goals) as Hdays.
  fold week in Hdays.
  assert (Hlen : length week = 7%nat) by apply weeklyHistory_length.
  destruct (weeklyHistory_lookup tz now random entries goals d)
    as (dl & Hdl & Hsum); [lia|].
  fold week in Hdl.
  exists dl. split; [exact Hdl|]. split; [exact Hsum|]. split.
  - unfold WeeklyStats.activeDays.
    rewrite <- (take_drop_middle week d dl Hdl) at 1.
    rewrite filter_app, (filter_app _ [dl] (drop (S d) week)).
    rewrite filter_all, (filter_none _ (drop (S d) week)).
    + by rewrite app_nil_r.
    + eapply Forall2_Forall_r; [apply (Forall2_drop _ _ _ (S d) Hdays)|].
      rewrite drop_seq. apply Forall_seq. intros i Hi dl' Hsum'.
      assert (Hfut : now < dayInstant tz now i)
        by (apply dayInstant_future; lia).
      destruct Hsum'; [cbn; lia | contradiction | contradiction].
    + eapply Forall2_Forall_r; [apply (Forall2_take _ _ _ d Hdays)|].
      rewrite take_seq. apply Forall_seq. intros i Hi dl' Hsum'.
      assert (Hpast : Z.of_nat i < distanceToMonday tz now) by lia.
      destruct Hsum' as [Hfut|_ Htoday|k _ _].
      * apply dayInstant_future in Hfut. lia.
      * by apply dayInstant_past_date in Htoday.
      * cbn. lia.
  - rewrite length_take. lia.
Qed.

(** X16. Read on the built week, the days passed of the weekly summary
    count the days before today plus today: at least the distance to Monday
    and at most one more; in UTC, once an entry is logged today, exactly the
    distance to Monday plus one. *)
Theorem daysPassed_of_week (tz now : Z) (random : nat → Q)
  (entries : list FoodEntry.t) (goals : UserGoals.t) :
  let week := weeklyHistory tz now random entries goals in
  distanceToMonday tz now ≤ Z.of_nat (length (WeeklyStats.activeDays week))
    ≤ distanceToMonday tz now + 1 ∧
  (tz = 0 → entries ≠ [] →
   WeeklyStats.daysPassed week = distanceToMonday tz now + 1).
Proof.
  cbn zeta.
  pose proof (distanceToMonday_range tz now) as Hr.
  destruct (activeDays_of_week tz now random entries goals)
    as (dl & Hdl & Hsum & Hact & Hlen).
  cbn zeta in *. split.
  - rewrite Hact, length_app, Hlen.
    unfold WeeklyStats.activeDays. rewrite filter_cons, filter_nil.
    destruct (decide _); cbn; lia.
  - intros -> Hne.
    unfold WeeklyStats.daysPassed. cbn zeta.
    rewrite Hact, length_app, Hlen.
    assert (Hentries : DayLog.entries dl = entries).
    { destruct Hsum as [Hfut| |k _ Hne'].
      - apply dayInstant_future in Hfut. lia.
      - reflexivity.
      - exfalso. apply Hne'. apply dayInstant_today_utc. lia. }
    unfold WeeklyStats.activeDays. rewrite filter_cons_True, filter_nil.
    + cbn [length].
      match goal with
      | |- context [?n =? 0] => destruct (Z.eqb_spec n 0)
      end; lia.
    + rewrite Hentries. destruct entries; [done | cbn; lia].
Qed.

Lemma daysPassed_of_week_witness :
  WeeklyStats.daysPassed
    (weeklyHistory 0 wednesday_morning (λ _, 1 # 2) live_entries INITIAL_GOALS)
  = distanceToMonday 0 wednesday_morning + 1.
Proof.
  apply (proj2 (daysPassed_of_week 0 wednesday_morning (λ _, 1 # 2)
                  live_entries INITIAL_GOALS)); [reflexivity | discriminate].
Defined.

(** ** Day cards *)




Lemma Math_round_ge (x : Q) (n : Z) :
  n ≤ Math_round x ↔ (inject_Z n - (1 # 2) <= x)%Q.
Proof.
  unfold Math_round.
  pose proof (Qfloor_le (x + (1 # 2))) as Hle.
  pose proof (Qlt_floor (x + (1 # 2))) as Hlt.
  split.
  - intros Hn. rewrite Zle_Qle in Hn. lra.
  - intros Hx.
    assert (Hq : (inject_Z n < inject_Z (Qfloor (x + (1 # 2)) + 1))%Q) by lra.
    rewrite <- Zlt_Qlt in Hq. lia.
Qed.

(** X18. For a positive calorie goal the percentage of a day card is
    capped at 100, is not negative for a non-negative total, and shows 100
    exactly when the day's calories reach 99.5% of the goal. *)
Theorem dayCard_percent (log : DayLog.t) (goals : UserGoals.t) :
  0 < UserGoals.calories goals →
  DayCard.percent log goals ≤ 100 ∧
  (0 ≤ DayCard.totalCals log → 0 ≤ DayCard.percent log goals) ∧
  (DayCard.percent log goals = 100 ↔
   199 * UserGoals.calories goals ≤ 200 * DayCard.totalCals log).
Proof.
  intros Hgoal. unfold DayCard.percent.
  set (t := DayCard.totalCals log). set (g := UserGoals.calories goals) in *.
  set (x := ((inject_Z t / inject_Z g) * 100)%Q).
  assert (Hg : (0 < inject_Z g)%Q).
  { change 0%Q with (inject_Z 0). by rewrite <- Zlt_Qlt. }
  assert (Hq : (inject_Z g * (inject_Z t / inject_Z g) == inject_Z t)%Q).
  { apply Qmult_div_r. lra. }
  split; [lia|]. split.
  - intros Ht.
    assert (0 ≤ Math_round x); [|lia].
    apply Math_round_ge. change (inject_Z 0) with 0%Q.
    assert (Ht' : (0 <= inject_Z t)%Q).
    { change 0%Q with (inject_Z 0). by rewrite <- Zle_Qle. }
    assert (Hr : (0 <= inject_Z t / inject_Z g)%Q).
    { apply Qle_shift_div_l; [exact Hg | lra]. }
    unfold x. lra.
  - pose proof (Math_round_ge x 100) as Hround.
    change (inject_Z 100) with 100%Q in Hround.
    assert (Hiff : (100 - (1 # 2) <= x)%Q ↔ 199 * g ≤ 200 * t).
    { rewrite (Zle_Qle (199 * g) (200 * t)), !inject_Z_mult.
      change (inject_Z 199) with 199%Q. change (inject_Z 200) with 200%Q.
      unfold x. set (q := (inject_Z t / inject_Z g)%Q) in *.
      split; intros H; nra. }
    rewrite <- Hiff, <- Hround. lia.
Qed.

Lemma dayCard_percent_witness :
  DayCard.percent (DayLog.mk 19725 "Wed" [sample_entry "a" Lunch 2190 30 40 20])
                  INITIAL_GOALS = 100.
Proof.
  apply (proj2 (proj2 (dayCard_percent
           (DayLog.mk 19725 "Wed" [sample_entry "a" Lunch 2190 30 40 20])
           INITIAL_GOALS ltac:(reflexivity)))).
  vm_compute. discriminate.
Defined.

(** ** The card of today *)

Lemma isoDate_shift (t k : Z) :
  Date.isoDate (t + k * Date.msPerDay) = Date.isoDate t + k.
Proof. unfold Date.isoDate. apply Z.div_add. discriminate. Qed.

Lemma week_date (tz now : Z) (random : nat → Q)
  (entries : list FoodEntry.t) (goals : UserGoals.t) (i : nat) (dl : DayLog.t) :
  weeklyHistory tz now random entries goals !! i = Some dl →
  DayLog.date dl = Date.isoDate (monday tz now) + Z.of_nat i.
Proof.
  intros Hdl.
  assert (Hlt : (i < 7)%nat).
  { apply lookup_lt_Some in Hdl. by rewrite weeklyHistory_length in Hdl. }
  destruct (weeklyHistory_lookup tz now random entries goals i Hlt)
    as (dl' & Hdl' & Hsum).
  rewrite Hdl in Hdl'. injection Hdl' as <-.
  rewrite <- isoDate_shift. by destruct Hsum.
Qed.

(** X19. The seven cards of the week carry seven consecutive dates, so at
    most one card is marked as today whenever the week is rendered.  In UTC,
    at the instant the week was built, the marked card is today's and it is
    the one that holds the live entries. *)
Theorem week_card_of_today (tz now : Z) (random : nat → Q)
  (entries : list FoodEntry.t) (goals : UserGoals.t) :
  let week := weeklyHistory tz now random entries goals in
  DayLog.date <$> week =
    (λ i, Date.isoDate (monday tz now) + Z.of_nat i) <$> seq 0 7 ∧
  (∀ (rendered : Z) (i j : nat) (dli dlj : DayLog.t),
     week !! i = Some dli → week !! j = Some dlj →
     DayCard.isToday dli rendered = true →
     DayCard.isToday dlj rendered = true → i = j) ∧
  (tz = 0 →
   ∃ dl, week !! Z.to_nat (distanceToMonday tz now) = Some dl ∧
         DayCard.isToday dl now = true ∧
         DayLog.entries dl = entries).
Proof.
  cbn zeta. split; [|split].
  - destruct (daySummary_names _ _ _ _ _ _ _
                (weeklyHistory_days tz now random entries goals)) as [_ Hd].
    rewrite Hd. apply list_fmap_ext. intros _ i _.
    unfold dayInstant, Date.addDays. apply isoDate_shift.
  - intros rendered i j dli dlj Hi Hj Hti Htj.
    apply bool_decide_eq_true in Hti, Htj.
    rewrite (week_date _ _ _ _ _ _ _ Hi) in Hti.
    rewrite (week_date _ _ _ _ _ _ _ Hj) in Htj. lia.
  - intros ->.
    pose proof (distanceToMonday_range 0 now) as Hr.
    set (d := Z.to_nat (distanceToMonday 0 now)).
    assert (Hd : Z.of_nat d = distanceToMonday 0 now) by (unfold d; lia).
    destruct (weeklyHistory_lookup 0 now random entries goals d)
      as (dl & Hdl & Hsum); [lia|].
    pose proof (dayInstant_today_utc now d Hd) as Hsame.
    exists dl. split; [exact Hdl|].
    destruct Hsum as [Hfut|_ _|k _ Hne].
    + apply dayInstant_future in Hfut. lia.
    + split; [|reflexivity]. apply bool_decide_eq_true. by cbn.
    + contradiction.
Qed.

Lemma week_card_of_today_witness :
  ∃ dl, weeklyHistory 0 wednesday_morning (λ _, 1 # 2) live_entries
          INITIAL_GOALS !! 2%nat = Some dl ∧
        DayCard.isToday dl wednesday_morning = true ∧
        DayLog.entries dl = live_entries.
Proof.
  apply (proj2 (proj2 (week_card_of_today 0 wednesday_morning (λ _, 1 # 2)
                         live_entries INITIAL_GOALS))).
  reflexivity.
Defined.

Lemma weeklyHistory_future_empty_witness :
  ∃ dl, weeklyHistory 60 wednesday_morning (λ _, 1 # 2) live_entries
          INITIAL_GOALS !! 5%nat = Some dl ∧
        DayLog.entries dl = [].
Proof.
  assert (Hdl : weeklyHistory 60 wednesday_morning (λ _, 1 # 2) live_entries
                  INITIAL_GOALS !! 5%nat = Some (DayLog.mk 19727 "Sat" []))
    by (vm_compute; reflexivity).
  eexists. split; [exact Hdl|].
  apply (weeklyHistory_future_empty 60 wednesday_morning (λ _, 1 # 2)
           live_entries INITIAL_GOALS 5 _ Hdl).
  reflexivity.
Defined.

Lemma weeklyHistory_today_east_witness :
  ∃ (dl : DayLog.t) (k : nat),
    weeklyHistory 60 wednesday_morning (λ _, 1 # 2) live_entries INITIAL_GOALS
      !! 2%nat = Some dl ∧
    DayLog.entries dl =
      [mockEntry INITIAL_GOALS 2 (dayInstant 60 wednesday_morning 2)
                 ((λ _ : nat, 1 # 2) k)].
Proof.
  apply (weeklyHistory_today_east 60 wednesday_morning (λ _, 1 # 2)
           live_entries INITIAL_GOALS).
  - reflexivity.
  - vm_compute. discriminate.
  - reflexivity.
Defined.

(** ** Editing an entry *)

(** X20. Opening an entry in the logger and saving it unchanged keeps its
    id, name, slot, tags, flags and nutrients; its timestamp is re-dated to
    the day of the save at the same hour and minute.  Saved over the list it
    came from, it takes the place of the original and leaves every dashboard
    total as it was. *)
Theorem edit_unchanged (tz opened now : Z) (uuid : string) (e : FoodEntry.t)
  (prev : list FoodEntry.t) (i : nat) :
  FoodEntry.id e ≠ ""%string →
  NoDup (FoodEntry.id <$> prev) → prev !! i = Some e →
  let saved :=
    LoggerForm.handleFinalSave tz now uuid (Some e)
      (LoggerForm.initialState tz opened (Some e)) in
  FoodEntry.id saved = FoodEntry.id e ∧
  FoodEntry.name saved = FoodEntry.name e ∧
  FoodEntry.mealType saved = FoodEntry.mealType e ∧
  FoodEntry.tags saved = FoodEntry.tags e ∧
  FoodEntry.inflammationFlags saved = FoodEntry.inflammationFlags e ∧
  nutrientsOf saved = nutrientsOf e ∧
  FoodEntry.timestamp saved =
    Logger.getTimestampFromTime tz now
      (Logger.formatTime tz (FoodEntry.timestamp e)) ∧
  handleSaveEntry saved prev = <[i := saved]> prev ∧
  Dashboard.totals (handleSaveEntry saved prev) = Dashboard.totals prev.
Proof.
  intros Hid Hnd Hi. cbn zeta.
  set (saved := LoggerForm.handleFinalSave tz now uuid (Some e)
                  (LoggerForm.initialState tz opened (Some e))).
  assert (Hsame : FoodEntry.id saved = FoodEntry.id e).
  { unfold saved, LoggerForm.handleFinalSave. cbn.
    by rewrite bool_decide_eq_false_2. }
  assert (Hnut : nutrientsOf saved = nutrientsOf e) by reflexivity.
  assert (Hsave : handleSaveEntry saved prev = <[i := saved]> prev).
  { apply (handleSaveEntry_present saved e prev i); [done | done | by symmetry]. }
  repeat (split; [first [exact Hsame | exact Hnut | exact Hsave | reflexivity]|]).
  rewrite Hsave, insert_take_drop by (by eapply lookup_lt_Some).
  rewrite <- (take_drop_middle prev i e Hi) at 3.
  by rewrite !totals_middle, Hnut.
Qed.

Lemma edit_unchanged_witness :
  Dashboard.totals
    (handleSaveEntry
       (LoggerForm.handleFinalSave 60 wednesday_morning "fresh"
          (Some (sample_entry "l" Lunch 700 50 90 25))
          (LoggerForm.initialState 60 wednesday_morning
             (Some (sample_entry "l" Lunch 700 50 90 25))))
       [sample_entry "b" Breakfast 500 40 60 15;
        sample_entry "l" Lunch 700 50 90 25]) =
  Dashboard.totals
    [sample_entry "b" Breakfast 500 40 60 15; sample_entry "l" Lunch 700 50 90 25].
Proof.
  refine (proj2 (proj2 (proj2 (proj2 (proj2 (proj2 (proj2 (proj2
    (edit_unchanged 60 wednesday_morning wednesday_morning "fresh"
       (sample_entry "l" Lunch 700 50 90 25)
       [sample_entry "b" Breakfast 500 40 60 15;
        sample_entry "l" Lunch 700 50 90 25] 1%nat _ _ eq_refl))))))))).
  - discriminate.
  - apply (bool_decide_unpack _). vm_compute. exact I.
Defined.
